(** * GreenProof core: a shallow embedding of src/src/core.py, receipt.py,
    detect.py and double_count_prevent.py, with the properties of the
    Merkle tree, the receipt ledger, the double-count registry and the
    fraud-score aggregator. *)

From Stdlib Require Import String List Arith Lia Bool ZArith QArith.
From Stdlib Require Import DecimalString Ascii Qminmax Lqa.
From stdpp Require Import base gmap strings.
Import ListNotations.
Set Warnings "-register-all".

Open Scope string_scope.
Open Scope nat_scope.
Open Scope list_scope.

(* ------------------------------------------------------------------ *)
(** ** Python values *)

(** The values that flow through receipts and proofs: JSON-like Python
    objects.  A [dict] with string keys keeps insertion order, as
    Python's dict does.  A float is kept as the exact rational it denotes
    (no rounding, no nan or infinity). *)
Inductive pyval : Type :=
| PyNone
| PyBool (b : bool)
| PyInt (z : Z)
| PyFloat (q : Q)
| PyStr (s : string)
| PyList (xs : list pyval)
| PyDict (kvs : list (string * pyval)).

Abbreviation dict := (list (string * pyval)).

(** [d.get(k)] *)
Fixpoint dict_get (d : dict) (k : string) : option pyval :=
  match d with
  | [] => None
  | (k', v) :: d' => if String.eqb k k' then Some v else dict_get d' k
  end.

(** [k in d] *)
Definition dict_mem (d : dict) (k : string) : bool :=
  match dict_get d k with Some _ => true | None => false end.

(** [d[k] = v]: an existing key keeps its position, a new key goes last. *)
Fixpoint dict_set (d : dict) (k : string) (v : pyval) : dict :=
  match d with
  | [] => [(k, v)]
  | (k', v') :: d' =>
      if String.eqb k k' then (k', v) :: d' else (k', v') :: dict_set d' k v
  end.

(** Python truthiness. *)
Definition truthy (v : pyval) : bool :=
  match v with
  | PyNone => false
  | PyBool b => b
  | PyInt z => negb (Z.eqb z 0)
  | PyFloat q => negb (Qeq_bool q 0)
  | PyStr s => negb (String.eqb s "")
  | PyList xs => negb (Nat.eqb (length xs) 0)
  | PyDict kvs => negb (Nat.eqb (length kvs) 0)
  end.

(** The exceptions the embedded code can raise. *)
Inductive exn : Type :=
| StopRule (message : string) (classification : string)
| KeyError (key : pyval)
| IndexError
| TypeError
| AttributeError.

Abbreviation res A := (exn + A)%type.

Notation "'let*' x ':=' m 'in' k" :=
  (match m with inl e => inl e | inr x => k end)
  (at level 200, x name, m at level 100, k at level 200).

(** [d[k]] *)
Definition getitem (d : dict) (k : string) : res pyval :=
  match dict_get d k with Some v => inr v | None => inl (KeyError (PyStr k)) end.

Definition char_str (c : Ascii.ascii) : pyval := PyStr (String c EmptyString).

(** [iter(v)]: lists yield their items, strings their characters, dicts
    their keys; other values are not iterable. *)
Definition py_iter (v : pyval) : res (list pyval) :=
  match v with
  | PyList xs => inr xs
  | PyStr s => inr (map char_str (list_ascii_of_string s))
  | PyDict kvs => inr (map (fun kv => PyStr (fst kv)) kvs)
  | _ => inl TypeError
  end.

(** [v[i]] for a non-negative int [i]. *)
Definition py_index (v : pyval) (i : nat) : res pyval :=
  match v with
  | PyList xs =>
      match nth_error xs i with Some x => inr x | None => inl IndexError end
  | PyStr s =>
      match nth_error (list_ascii_of_string s) i with
      | Some c => inr (char_str c) | None => inl IndexError end
  | PyDict _ => inl (KeyError (PyInt (Z.of_nat i)))
  | _ => inl TypeError
  end.

(** [str(n)] for a natural number. *)
Definition nat_str (n : nat) : string := NilZero.string_of_uint (Nat.to_uint n).

(** The fractional digits of [r / d] (with [0 <= r < d]), at most [fuel]
    of them, stopping when the remainder is zero. *)
Fixpoint frac_digits (fuel : nat) (r d : Z) : string :=
  match fuel with
  | O => EmptyString
  | S fuel' =>
      if Z.eqb r 0 then EmptyString
      else String (Ascii.ascii_of_nat (48 + Z.to_nat ((r * 10) / d)%Z))
                  (frac_digits fuel' ((r * 10) mod d)%Z d)
  end.

(** [str(x)] for a float [x]: sign, integer part, a point and the
    fractional digits, at least one ([1000.0], [7.5], [-0.25]).  This is
    Python's output for floats below 1e16 in magnitude whose decimal
    expansion has at most 17 fractional digits; longer expansions are cut
    after 17 digits. *)
Definition float_str (q : Q) : string :=
  let n := Z.abs (Qnum q) in
  let d := Zpos (Qden q) in
  let fr := frac_digits 17 (n mod d)%Z d in
  (if (Qnum q <? 0)%Z then "-" else "") +:+
  NilZero.string_of_int (Z.to_int (n / d)%Z) +:+ "." +:+
  (if String.eqb fr "" then "0" else fr).

(* ------------------------------------------------------------------ *)
(** ** core.py: Merkle tree *)

Module Merkle.
Section Merkle.

(** [dual_hash] on a Python [str]; its digests are left abstract. *)
Variable dual_hash : string -> string.

(** [if len(working) % 2 == 1: working.append(working[-1])] *)
Definition pad_odd (w : list string) : list string :=
  if Nat.odd (length w) then w ++ [List.last w ""] else w.

(** [if len(working_hashes) % 2 == 1 and len(working_hashes) > 1: ...] *)
Definition pad_odd_gt1 (w : list string) : list string :=
  if Nat.odd (length w) && (1 <? length w)%nat then w ++ [List.last w ""] else w.

(** [for i in range(0, len(working), 2): next_level.append(dual_hash(working[i] + working[i + 1]))];
    only ever applied to a level of even length. *)
Fixpoint pair_level (w : list string) : list string :=
  match w with
  | a :: b :: r => dual_hash (a +:+ b) :: pair_level r
  | _ => []
  end.

(** The [while len(working) > 1] loop of [merkle_root]; the fuel is the
    length of the input, at least the number of levels. *)
Fixpoint root_loop (fuel : nat) (working : list string) : string :=
  match fuel with
  | 0 => hd "" working
  | S f =>
      if (1 <? length working)%nat then root_loop f (pair_level (pad_odd working))
      else hd "" working
  end.

Definition merkle_root (hashes : list string) : string :=
  match hashes with
  | [] => dual_hash ""
  | [h] => h
  | _ => root_loop (length hashes) (hashes)
  end.

(** The [while len(working_hashes) > 1] loop of [merkle_proof]: returns
    the sibling path, the directions and the last level. *)
Fixpoint proof_loop (fuel : nat) (working : list string) (current : nat)
  : list string * list string * list string :=
  match fuel with
  | 0 => ([], [], working)
  | S f =>
      if (1 <? length working)%nat then
        let sd := if Nat.even current then (S current, "right")
                  else (pred current, "left") in
        let step := match nth_error working (fst sd) with
                    | Some s => [s] | None => [] end in
        let '(p, d, w) := proof_loop f (pad_odd_gt1 (pair_level working))
                                     (current / 2) in
        (step ++ p, snd sd :: d, w)
      else ([], [], working)
  end.

(** [merkle_proof(hashes, index)] for a non-negative [index]. *)
Definition merkle_proof (hashes : list string) (index : nat) : pyval :=
  if (Nat.eqb (length hashes) 0) || (length hashes <=? index) then
    PyDict [("valid", PyBool false); ("path", PyList []); ("directions", PyList [])]
  else
    let working := pad_odd hashes in
    let '(p, d, w) := proof_loop (length working) working index in
    PyDict [("valid", PyBool true);
            ("leaf_hash", PyStr (nth index hashes ""));
            ("path", PyList (map PyStr p));
            ("directions", PyList (map PyStr d));
            ("root", match w with r :: _ => PyStr r | [] => PyNone end)].

(** [proof["directions"][i] == "right"] *)
Definition is_right (v : pyval) : bool :=
  match v with PyStr s => String.eqb s "right" | _ => false end.

(** The [for i, sibling in enumerate(proof["path"])] loop of
    [verify_merkle_proof]. *)
Fixpoint verify_loop (proof : dict) (i : nat) (current : string)
         (path : list pyval) : res string :=
  match path with
  | [] => inr current
  | sibling :: rest =>
      let* directions := getitem proof "directions" in
      let* dir := py_index directions i in
      match sibling with
      | PyStr s =>
          let combined := if is_right dir then current +:+ s else s +:+ current in
          verify_loop proof (S i) (dual_hash combined) rest
      | _ => inl TypeError
      end
  end.

Definition verify_merkle_proof (leaf_hash : string) (proof : pyval) (root : string)
  : res bool :=
  match proof with
  | PyDict d =>
      if truthy (default PyNone (dict_get d "valid")) then
        let* path := getitem d "path" in
        let* xs := py_iter path in
        let* current := verify_loop d 0 leaf_hash xs in
        inr (String.eqb current root)
      else inr false
  | _ => inl AttributeError
  end.

(** What the loop of [verify_merkle_proof] computes on a path of strings
    with a direction for every step. *)
Fixpoint fold_path (current : string) (path : list string) (dirs : list pyval)
  : string :=
  match path, dirs with
  | s :: path', dir :: dirs' =>
      fold_path (dual_hash (if is_right dir then current +:+ s else s +:+ current))
                path' dirs'
  | _, _ => current
  end.

End Merkle.
End Merkle.

(** A toy digest, used to run the definitions on concrete inputs. *)
Definition toy_hash (s : string) : string := "h(" +:+ s +:+ ")".

(* ------------------------------------------------------------------ *)
(** ** Program state *)

(** A [datetime] as [datetime.now(timezone.utc)] returns it. *)
Record datetime := mkDatetime {
  year : nat; month : nat; day : nat;
  hour : nat; minute : nat; second : nat; microsecond : nat
}.

Fixpoint zeros (n : nat) : string :=
  match n with 0 => "" | S n' => "0" +:+ zeros n' end.

(** [n] in decimal, left-padded with zeros to [width] digits. *)
Definition zpad (width n : nat) : string :=
  let s := nat_str n in zeros (width - String.length s) +:+ s.

(** [datetime.isoformat()] of an aware UTC datetime. *)
Definition isoformat (t : datetime) : string :=
  zpad 4 (year t) +:+ "-" +:+ zpad 2 (month t) +:+ "-" +:+ zpad 2 (day t) +:+
  "T" +:+ zpad 2 (hour t) +:+ ":" +:+ zpad 2 (minute t) +:+ ":" +:+
  zpad 2 (second t) +:+
  (if Nat.eqb (microsecond t) 0 then "" else "." +:+ zpad 6 (microsecond t)) +:+
  "+00:00".

(** An entry of [_CREDIT_REGISTRY[credit_id]]:
    [{"registry", "owner_hash", "credit_hash", "status"}]. *)
Record occurrence := mkOccurrence {
  occ_registry : string;
  occ_owner_hash : string;
  occ_credit_hash : string;
  occ_status : string
}.

Definition occurrence_dict (o : occurrence) : pyval :=
  PyDict [("registry", PyStr (occ_registry o)); ("owner_hash", PyStr (occ_owner_hash o));
          ("credit_hash", PyStr (occ_credit_hash o)); ("status", PyStr (occ_status o))].

(** Modelled from the spec: the anchors of the proof chain of [src/prove.py]
    ([add_to_chain], [anchor_chain], [reset_chain]; imported by [cli.py] and
    the tests, absent from the sources): [{height, merkle_root, leaf_count,
    anchor_type, previous_anchor}]. *)
Record anchor := mkAnchor {
  anchor_height : nat;
  anchor_merkle_root : string;
  anchor_leaf_count : nat;
  anchor_kind : string;
  previous_anchor : option string
}.

(** The program's global state: the lines of [receipts.jsonl] (each the
    record that [json.dumps(receipt, sort_keys=True)] writes), the number of
    reads of the UTC clock so far, [_CREDIT_REGISTRY], [_MERKLE_HASHES], and
    the spec-modelled proof chain (leaf hashes and anchors). *)
Record world := mkWorld {
  receipts_file : list dict;
  clock_reads : nat;
  credit_registry : gmap string (list occurrence);
  merkle_hashes : list string;
  chain_leaves : list string;
  chain_anchors : list anchor
}.

(** State and exceptions: a raised exception carries the state at the
    raise point. *)
Definition M (A : Type) : Type := world -> world * res A.

Definition retM {A} (a : A) : M A := fun w => (w, inr a).
Definition raiseM {A} (e : exn) : M A := fun w => (w, inl e).
Definition bindM {A B} (m : M A) (k : A -> M B) : M B :=
  fun w => match m w with
           | (w', inl e) => (w', inl e)
           | (w', inr a) => k a w'
           end.

Notation "'let!' x ':=' m 'in' k" := (bindM m (fun x => k))
  (at level 200, x name, m at level 100, k at level 200).

(** [GREENPROOF_TENANT] *)
Definition GREENPROOF_TENANT : string := "greenproof-climate".

(* ------------------------------------------------------------------ *)
(** ** core.py: the receipt ledger *)

Module Core.
Section Core.

Variable dual_hash : string -> string.
(** [json.dumps(v, sort_keys=b)] *)
Variable json_dumps : bool -> pyval -> string.
(** The UTC clock: its [n]-th reading. *)
Variable utc_clock : nat -> datetime.

(** [datetime.now(timezone.utc)] *)
Definition utc_now : M datetime :=
  fun w => ({| receipts_file := receipts_file w; clock_reads := S (clock_reads w);
               credit_registry := credit_registry w; merkle_hashes := merkle_hashes w;
               chain_leaves := chain_leaves w; chain_anchors := chain_anchors w |},
            inr (utc_clock (clock_reads w))).

(** [f.write(json.dumps(receipt, sort_keys=True) + "\n")] on [RECEIPTS_FILE]
    opened in append mode. *)
Definition append_line (r : dict) : M unit :=
  fun w => ({| receipts_file := receipts_file w ++ [r]; clock_reads := clock_reads w;
               credit_registry := credit_registry w; merkle_hashes := merkle_hashes w;
               chain_leaves := chain_leaves w; chain_anchors := chain_anchors w |},
            inr tt).

Definition emit_receipt (receipt : dict) : M dict :=
  let! r1 := (if dict_mem receipt "ts" then retM receipt
              else let! now := utc_now in
                   retM (dict_set receipt "ts" (PyStr (isoformat now)))) in
  let r2 := if dict_mem r1 "tenant_id" then r1
            else dict_set r1 "tenant_id" (PyStr GREENPROOF_TENANT) in
  let r3 := if negb (dict_mem r2 "payload_hash") && dict_mem r2 "payload"
            then dict_set r2 "payload_hash"
                   (PyStr (dual_hash (json_dumps true (default PyNone (dict_get r2 "payload")))))
            else r2 in
  let! _ := append_line r3 in
  retM r3.

Definition emit_anomaly_receipt (tenant_id anomaly_type classification : string)
    (details : dict) (action : string) : M dict :=
  emit_receipt
    [("receipt_type", PyStr "anomaly"); ("tenant_id", PyStr tenant_id);
     ("anomaly_type", PyStr anomaly_type); ("classification", PyStr classification);
     ("action", PyStr action); ("details", PyDict details);
     ("payload_hash", PyStr (dual_hash (json_dumps true (PyDict details))))].

End Core.
End Core.

(* ------------------------------------------------------------------ *)
(** ** receipt.py: receipt schemas *)

Module Receipt.

Record schema := mkSchema {
  schema_type : string;
  required_fields : list string;
  optional_fields : list string
}.

Definition RECEIPT_SCHEMAS : list (string * schema) :=
  [("ingest", mkSchema "ingest"
      ["ts"; "tenant_id"; "payload_hash"; "source"; "record_count"] ["metadata"]);
   ("emissions_verify", mkSchema "emissions_verify"
      ["ts"; "tenant_id"; "payload_hash"; "report_hash"; "external_source_hashes";
       "match_score"; "verified_value"; "claimed_value"; "discrepancy_pct"; "status"]
      ["verification_method"; "confidence_interval"]);
   ("carbon_credit", mkSchema "carbon_credit"
      ["ts"; "tenant_id"; "payload_hash"; "credit_id"; "registry"; "project_type";
       "claimed_tonnes"; "baseline_tonnes"; "additionality_score"; "vintage_year";
       "registry_status"; "verification_status"]
      ["project_location"; "methodology"]);
   ("double_count", mkSchema "double_count"
      ["ts"; "tenant_id"; "payload_hash"; "credit_id"; "registries_checked";
       "occurrences"; "is_unique"; "merkle_position"; "merkle_proof";
       "cross_registry_root"]
      ["previous_owners"]);
   ("climate_validation", mkSchema "climate_validation"
      ["ts"; "tenant_id"; "payload_hash"; "compression_ratio"; "entropy_signature";
       "physical_consistency"; "validation_status"]
      ["physical_model"; "expected_entropy_range"]);
   ("anomaly", mkSchema "anomaly"
      ["ts"; "tenant_id"; "payload_hash"; "anomaly_type"; "classification"; "action";
       "details"]
      ["related_receipts"; "remediation"]);
   ("anchor", mkSchema "anchor"
      ["ts"; "tenant_id"; "payload_hash"; "merkle_root"; "leaf_count"; "anchor_type"]
      ["previous_anchor"; "chain_height"])].

Fixpoint schema_lookup (k : string) (t : list (string * schema)) : option schema :=
  match t with
  | [] => None
  | (k', s) :: t' => if String.eqb k k' then Some s else schema_lookup k t'
  end.

(** [str(v)] for the hashable scalars. *)
Definition py_str (v : pyval) : string :=
  match v with
  | PyNone => "None"
  | PyBool true => "True"
  | PyBool false => "False"
  | PyInt z => NilZero.string_of_int (Z.to_int z)
  | PyFloat q => float_str q
  | PyStr s => s
  | _ => ""
  end.

Definition validate_receipt (receipt : dict) : res (bool * list string) :=
  let receipt_type := default PyNone (dict_get receipt "receipt_type") in
  if negb (truthy receipt_type) then inr (false, ["receipt_type missing"])
  else
    match receipt_type with
    | PyList _ | PyDict _ => inl TypeError  (* unhashable key *)
    | _ =>
        let sch := match receipt_type with
                   | PyStr s => schema_lookup s RECEIPT_SCHEMAS
                   | _ => None
                   end in
        match sch with
        | None => inr (false, ["unknown receipt_type: " +:+ py_str receipt_type])
        | Some sc =>
            let missing := filter (fun f => negb (dict_mem receipt f)) (required_fields sc) in
            inr (Nat.eqb (length missing) 0, missing)
        end
    end.

End Receipt.

(* ------------------------------------------------------------------ *)
(** ** double_count_prevent.py: the cross-registry credit registry *)

Definition get_world : M world := fun w => (w, inr w).

(** [_CREDIT_REGISTRY[credit_id] = occurrences] *)
Definition set_registry_entry (credit_id : string) (occs : list occurrence) : M unit :=
  fun w => ({| receipts_file := receipts_file w; clock_reads := clock_reads w;
               credit_registry := <[credit_id := occs]> (credit_registry w);
               merkle_hashes := merkle_hashes w;
               chain_leaves := chain_leaves w; chain_anchors := chain_anchors w |},
            inr tt).

(** [_MERKLE_HASHES.append(h)]; returns the list after the append. *)
Definition push_merkle_hash (h : string) : M (list string) :=
  fun w => ({| receipts_file := receipts_file w; clock_reads := clock_reads w;
               credit_registry := credit_registry w;
               merkle_hashes := merkle_hashes w ++ [h];
               chain_leaves := chain_leaves w; chain_anchors := chain_anchors w |},
            inr (merkle_hashes w ++ [h])).

Module DoubleCount.
Section DoubleCount.

Variable dual_hash : string -> string.
Variable json_dumps : bool -> pyval -> string.
Variable utc_clock : nat -> datetime.

Definition emit_receipt := Core.emit_receipt dual_hash json_dumps utc_clock.
Definition emit_anomaly_receipt := Core.emit_anomaly_receipt dual_hash json_dumps utc_clock.

(** The [for occurrence in existing] loop of [register_credit], with its
    [break]: [false] as soon as an occurrence has a different registry or
    owner. *)
Fixpoint scan_unique (registry owner_hash : string) (existing : list occurrence) : bool :=
  match existing with
  | [] => true
  | o :: rest =>
      if negb (String.eqb (occ_registry o) registry) ||
         negb (String.eqb (occ_owner_hash o) owner_hash)
      then false
      else scan_unique registry owner_hash rest
  end.

Definition stoprule_double_count (credit_id : string) (occurrences : list occurrence)
    (tenant_id : string) : M unit :=
  let! _ := emit_anomaly_receipt tenant_id "double_count" "critical"
              [("credit_id", PyStr credit_id);
               ("occurrence_count", PyInt (Z.of_nat (length occurrences)));
               ("registries", PyList (map (fun o => PyStr (occ_registry o)) occurrences));
               ("owners", PyList (map (fun o => PyStr (occ_owner_hash o)) occurrences))]
              "halt" in
  raiseM (StopRule ("Double-counting detected: " +:+ credit_id +:+ " appears in " +:+
                    nat_str (length occurrences) +:+ " registries") "critical").

(** [register_credit(credit_id, registry, owner_hash, tenant_id)].  The
    returned [occurrences] is, in Python, the live list of the registry
    entry; the model returns its value at the time of the return. *)
Definition register_credit (credit_id registry owner_hash tenant_id : string) : M dict :=
  let credit_instance := PyDict [("credit_id", PyStr credit_id); ("registry", PyStr registry);
                                 ("owner_hash", PyStr owner_hash)] in
  let credit_hash := dual_hash (json_dumps true credit_instance) in
  let! w := get_world in
  let existing := default [] (credit_registry w !! credit_id) in
  let is_unique := scan_unique registry owner_hash existing in
  let occs := existing ++ [mkOccurrence registry owner_hash credit_hash "active"] in
  let! _ := set_registry_entry credit_id occs in
  let! hashes := push_merkle_hash credit_hash in
  let merkle_position := length hashes - 1 in
  let proof := Merkle.merkle_proof dual_hash hashes merkle_position in
  let cross_registry_root := Merkle.merkle_root dual_hash hashes in
  let result :=
    [("credit_id", PyStr credit_id); ("registry", PyStr registry);
     ("is_unique", PyBool is_unique); ("merkle_position", PyStr (nat_str merkle_position));
     ("merkle_proof", PyStr (json_dumps false proof));
     ("cross_registry_root", PyStr cross_registry_root);
     ("occurrences", PyList (map occurrence_dict occs))] in
  let receipt :=
    [("receipt_type", PyStr "double_count"); ("tenant_id", PyStr tenant_id);
     ("payload_hash", PyStr (dual_hash (json_dumps true (PyDict result))));
     ("credit_id", PyStr credit_id); ("registries_checked", PyList [PyStr registry]);
     ("occurrences", PyList (map occurrence_dict occs)); ("is_unique", PyBool is_unique);
     ("merkle_position", PyStr (nat_str merkle_position));
     ("merkle_proof", PyStr (json_dumps false proof));
     ("cross_registry_root", PyStr cross_registry_root)] in
  let! _ := emit_receipt receipt in
  let! _ := (if negb is_unique then stoprule_double_count credit_id occs tenant_id
             else retM tt) in
  retM result.

End DoubleCount.
End DoubleCount.

(* ------------------------------------------------------------------ *)
(** ** prove.py: the anchored proof chain (modelled from the spec) *)

(** [_CHAIN_ANCHORS.append(a)] *)
Definition push_anchor (a : anchor) : M unit :=
  fun w => ({| receipts_file := receipts_file w; clock_reads := clock_reads w;
               credit_registry := credit_registry w; merkle_hashes := merkle_hashes w;
               chain_leaves := chain_leaves w; chain_anchors := chain_anchors w ++ [a] |},
            inr tt).

Module ProofChain.
Section ProofChain.

Variable dual_hash : string -> string.
Variable json_dumps : bool -> pyval -> string.
Variable utc_clock : nat -> datetime.

Definition anchor_dict (a : anchor) : pyval :=
  PyDict [("anchor_height", PyInt (Z.of_nat (anchor_height a)));
          ("merkle_root", PyStr (anchor_merkle_root a));
          ("leaf_count", PyInt (Z.of_nat (anchor_leaf_count a)));
          ("anchor_type", PyStr (anchor_kind a));
          ("previous_anchor", match previous_anchor a with
                              | Some r => PyStr r | None => PyNone end)].

(** Modelled from the spec: [anchor_chain(anchor_type, tenant_id)] of
    [src/prove.py] (called by [cli.py] and the tests, absent from the
    sources).  "snapshot the current leaf list, compute its Merkle root,
    build an Anchor referencing the previous anchor's root (or null if
    first), assign the next monotonically increasing height, and emit the
    Anchor itself as a Receipt." *)
Definition anchor_chain (anchor_type tenant_id : string) : M pyval :=
  let! w := get_world in
  let leaves := chain_leaves w in
  let root := Merkle.merkle_root dual_hash leaves in
  let prev := match last (chain_anchors w) with
              | Some a => Some (anchor_merkle_root a) | None => None end in
  let a := mkAnchor (length (chain_anchors w)) root (length leaves) anchor_type prev in
  let! _ := push_anchor a in
  let! _ := Core.emit_receipt dual_hash json_dumps utc_clock
              [("receipt_type", PyStr "anchor"); ("tenant_id", PyStr tenant_id);
               ("payload_hash", PyStr (dual_hash (json_dumps true (anchor_dict a))));
               ("merkle_root", PyStr root);
               ("leaf_count", PyInt (Z.of_nat (length leaves)));
               ("anchor_type", PyStr anchor_type);
               ("previous_anchor", match prev with Some r => PyStr r | None => PyNone end);
               ("chain_height", PyInt (Z.of_nat (anchor_height a)))] in
  retM (anchor_dict a).

End ProofChain.
End ProofChain.

(* ------------------------------------------------------------------ *)
(** ** detect.py: fraud-score aggregation (float arithmetic as exact
    rationals) *)

Module Detect.
Open Scope Q_scope.

Record FraudCheck := mkFraudCheck {
  check_type : string;
  passed : bool;
  score : Q;
  confidence : Q;
  details : dict
}.

Definition FRAUD_WEIGHTS : list (string * Q) :=
  [("compression_fraud", 0.35); ("double_counting", 0.30); ("additionality", 0.15);
   ("permanence", 0.10); ("leakage", 0.10)].

Definition FRAUD_LEVELS : list (string * (Q * Q)) :=
  [("clean", (0.0, 0.20)); ("suspect", (0.20, 0.50));
   ("likely_fraud", (0.50, 0.80)); ("confirmed_fraud", (0.80, 1.0))].

Fixpoint q_lookup (k : string) (t : list (string * Q)) : option Q :=
  match t with
  | [] => None
  | (k', v) :: t' => if String.eqb k k' then Some v else q_lookup k t'
  end.

(** [FRAUD_WEIGHTS.get(check_type, 0.1)] *)
Definition fraud_weight (t : string) : Q := default 0.1 (q_lookup t FRAUD_WEIGHTS).

(** Python's [max(a, b)] and [min(a, b)]: the first argument unless the
    second is strictly larger (smaller). *)
Definition py_max (a b : Q) : Q := if Qle_bool b a then a else b.
Definition py_min (a b : Q) : Q := if Qle_bool a b then a else b.

(** One iteration of the [for check in checks] loop:
    [(weighted_sum, total_weight, max_critical_score)]. *)
Definition score_step (acc : Q * Q * Q) (c : FraudCheck) : Q * Q * Q :=
  let '(weighted_sum, total_weight, max_critical_score) := acc in
  let weight := fraud_weight (check_type c) in
  let adjusted_weight := weight * confidence c in
  (weighted_sum + score c * adjusted_weight,
   total_weight + adjusted_weight,
   if Qle_bool 0.90 (confidence c) && Qle_bool 0.80 (score c)
   then py_max max_critical_score (score c) else max_critical_score).

Definition calculate_fraud_score (checks : list FraudCheck) : Q :=
  match checks with
  | [] => 0.0
  | _ =>
      let '(weighted_sum, total_weight, max_critical_score) :=
        fold_left score_step checks (0.0, 0.0, 0.0) in
      if Qeq_bool total_weight 0 then 0.0
      else
        let base_score := weighted_sum / total_weight in
        if Qle_bool 0.80 max_critical_score
        then py_min 1.0 (py_max base_score 0.6)
        else py_min 1.0 base_score
  end.

(** The [for level, (low, high) in FRAUD_LEVELS.items()] loop. *)
Fixpoint classify_loop (score : Q) (levels : list (string * (Q * Q))) : option string :=
  match levels with
  | [] => None
  | (level, (low, high)) :: rest =>
      if Qle_bool low score && negb (Qle_bool high score) then Some level
      else classify_loop score rest
  end.

Definition classify_fraud_level (score : Q) : string :=
  match classify_loop score FRAUD_LEVELS with
  | Some level => level
  | None => if Qle_bool 0.80 score then "confirmed_fraud" else "clean"
  end.

(** The spec's aggregate: [sum(score_i * effective_weight_i)] and
    [sum(effective_weight_i)] with [effective_weight_i =
    base_weight(check_type_i) * confidence_i]. *)
Definition spec_weighted_sum (checks : list FraudCheck) : Q :=
  fold_right (fun c acc => score c * (fraud_weight (check_type c) * confidence c) + acc) 0 checks.
Definition spec_total_weight (checks : list FraudCheck) : Q :=
  fold_right (fun c acc => fraud_weight (check_type c) * confidence c + acc) 0 checks.
(** The spec's escalation trigger: [confidence >= 0.90] and [score >= 0.80]. *)
Definition spec_critical (c : FraudCheck) : bool :=
  Qle_bool 0.90 (confidence c) && Qle_bool 0.80 (score c).

(** The range the spec assumes for a check: score and confidence in [0, 1]. *)
Definition in_range (c : FraudCheck) : Prop :=
  0 <= score c <= 1 /\ 0 <= confidence c <= 1.

Close Scope Q_scope.
End Detect.

(* ------------------------------------------------------------------ *)
(** ** double_count_prevent.py: [check_double_count] and
    [merkle_cross_registry] *)

(** [SUPPORTED_REGISTRIES] of core.py *)
Definition SUPPORTED_REGISTRIES : list string :=
  ["verra"; "gold_standard"; "american_carbon_registry"; "climate_action_reserve"].

(** [len({...})] of a set built from a list of strings. *)
Definition set_size (xs : list string) : nat := length (nodup string_dec xs).

Module DoubleCountQuery.
Section DoubleCountQuery.

Variable dual_hash : string -> string.
Variable json_dumps : bool -> pyval -> string.
Variable utc_clock : nat -> datetime.

(** [check_double_count(credit_id, registries, tenant_id)]; [None] stands
    for the default [registries=None]. *)
Definition check_double_count (credit_id : string) (registries : option (list string))
    (tenant_id : string) : M dict :=
  let registries := match registries with None => SUPPORTED_REGISTRIES | Some r => r end in
  let! w := get_world in
  let occurrences := default [] (credit_registry w !! credit_id) in
  let filtered_occurrences :=
    filter (fun o => existsb (String.eqb (occ_registry o)) registries) occurrences in
  let owners := map occ_owner_hash filtered_occurrences in
  let registries_found := map occ_registry filtered_occurrences in
  let is_double_counted :=
    (1 <? length filtered_occurrences)%nat &&
    ((1 <? set_size owners)%nat || (1 <? set_size registries_found)%nat) in
  let result :=
    [("credit_id", PyStr credit_id); ("registries_checked", PyList (map PyStr registries));
     ("occurrences", PyList (map occurrence_dict filtered_occurrences));
     ("occurrence_count", PyInt (Z.of_nat (length filtered_occurrences)));
     ("is_double_counted", PyBool is_double_counted);
     ("unique_owners", PyInt (Z.of_nat (set_size owners)));
     ("unique_registries", PyInt (Z.of_nat (set_size registries_found)))] in
  let! _ := (if is_double_counted
             then DoubleCount.stoprule_double_count dual_hash json_dumps utc_clock
                    credit_id filtered_occurrences tenant_id
             else retM tt) in
  retM result.

(** One entry of [proofs] in [merkle_cross_registry]. *)
Definition credit_proof (hashes : list string) (i : nat) (credit : dict) : pyval :=
  PyDict [("credit_id", default PyNone (dict_get credit "credit_id"));
          ("position", PyInt (Z.of_nat i));
          ("proof", Merkle.merkle_proof dual_hash hashes i)].

(** [merkle_cross_registry(credits, tenant_id)], for a list of dicts. *)
Definition merkle_cross_registry (credits : list dict) (tenant_id : string) : M dict :=
  let hashes := map (fun c => dual_hash (json_dumps true (PyDict c))) credits in
  let root := Merkle.merkle_root dual_hash hashes in
  let proofs := imap (credit_proof hashes) credits in
  let result :=
    [("credit_count", PyInt (Z.of_nat (length credits)));
     ("cross_registry_root", PyStr root);
     ("proofs", PyList proofs)] in
  let anchor_receipt :=
    [("receipt_type", PyStr "anchor"); ("tenant_id", PyStr tenant_id);
     ("payload_hash", PyStr (dual_hash (json_dumps true (PyDict result))));
     ("merkle_root", PyStr root);
     ("leaf_count", PyInt (Z.of_nat (length credits)));
     ("anchor_type", PyStr "cross_registry")] in
  let! _ := Core.emit_receipt dual_hash json_dumps utc_clock anchor_receipt in
  retM result.

End DoubleCountQuery.
End DoubleCountQuery.

(* ------------------------------------------------------------------ *)
(** ** detect.py: the five fraud checks and the decision of [detect_fraud] *)

Module DetectChecks.
Import Detect.
Open Scope Q_scope.

(** A [FraudCheck] as the check functions build it. *)
Record Check := mkCheck {
  ck_type : string;
  ck_passed : bool;
  ck_score : Q;
  ck_confidence : Q;
  ck_details : dict
}.

(** [calculate_fraud_score] reads only [check_type], [score] and
    [confidence] of a check. *)
Definition fraud_check_of (c : Check) : FraudCheck :=
  mkFraudCheck (ck_type c) (ck_passed c) (ck_score c) (ck_confidence c) [].

(** [needle in hay] on strings. *)
Fixpoint contains (needle hay : string) : bool :=
  String.prefix needle hay ||
  match hay with
  | EmptyString => false
  | String _ hay' => contains needle hay'
  end.

(** [v == s] for a string literal [s]. *)
Definition py_eq_str (v : pyval) (s : string) : bool :=
  match v with PyStr t => String.eqb t s | _ => false end.

(** [v in [s1, s2, ...]] for a list of string literals. *)
Definition py_in_strs (v : pyval) (l : list string) : bool := existsb (py_eq_str v) l.

(** [v == 0] *)
Definition py_eq_zero (v : pyval) : bool :=
  match v with
  | PyInt z => Z.eqb z 0
  | PyFloat q => Qeq_bool q 0
  | PyBool b => negb b
  | _ => false
  end.

(** The number a Python int, float or bool stands for in arithmetic and
    comparisons with a number; other values raise [TypeError] there. *)
Definition py_num (v : pyval) : option Q :=
  match v with
  | PyInt z => Some (inject_Z z)
  | PyFloat q => Some q
  | PyBool b => Some (if b then 1 else 0)
  | _ => None
  end.

(** [v.method()] for a [str] method; other values have no such method. *)
Definition str_method (v : pyval) (f : string -> string) : res string :=
  match v with PyStr s => inr (f s) | _ => inl AttributeError end.

(** [v.get(k, dflt)]; only dicts have [get]. *)
Definition get_method (v : pyval) (k : string) (dflt : pyval) : res pyval :=
  match v with PyDict d => inr (default dflt (dict_get d k)) | _ => inl AttributeError end.

(** [d.get(k, 0.0)] *)
Definition get_float_default (d : dict) (k : string) : pyval :=
  default (PyFloat 0.0) (dict_get d k).

(** [check_compression_fraud(compression_receipt)] *)
Definition check_compression_fraud (compression_receipt : dict) : Check :=
  let ratio := get_float_default compression_receipt "compression_ratio" in
  let classification := default (PyStr "unknown") (dict_get compression_receipt "classification") in
  let physics_consistent := default (PyBool true) (dict_get compression_receipt "physics_consistent") in
  let physics_violations := default (PyList []) (dict_get compression_receipt "physics_violations") in
  if py_eq_str classification "verified" then
    mkCheck "compression_fraud" true 0.0 0.95
      [("ratio", ratio); ("classification", classification);
       ("physics_consistent", physics_consistent)]
  else if py_eq_str classification "suspect" then
    mkCheck "compression_fraud" true 0.3 0.70
      [("ratio", ratio); ("classification", classification);
       ("physics_consistent", physics_consistent)]
  else
    let score := if negb (truthy physics_consistent) then 0.9 else 0.7 in
    mkCheck "compression_fraud" false score
      (if negb (truthy physics_consistent) then 0.95 else 0.80)
      [("ratio", ratio); ("classification", classification);
       ("physics_consistent", physics_consistent);
       ("physics_violations", physics_violations)].

(** [check_double_counting(registry_receipt)] *)
Definition check_double_counting (registry_receipt : dict) : res Check :=
  let duplicates := default (PyInt 0) (dict_get registry_receipt "duplicates_found") in
  let overlap := get_float_default registry_receipt "overlap_percentage" in
  let duplicate_registries := default (PyList []) (dict_get registry_receipt "duplicate_registries") in
  if py_eq_zero duplicates then
    inr (mkCheck "double_counting" true 0.0 0.99 [("duplicates", PyInt 0)])
  else
    match py_num duplicates with
    | None => inl TypeError
    | Some d =>
        let score := py_min 1.0 (0.5 + d * 0.25) in
        inr (mkCheck "double_counting" false score 0.99
               [("duplicates", duplicates);
                ("duplicate_registries", duplicate_registries);
                ("overlap", overlap)])
    end.

(** [min(1.0, score)] and [passed = score < 0.3] *)
Definition clamp_score (s : Q) : Q := py_min 1.0 s.
Definition low_risk (s : Q) : bool := negb (Qle_bool 0.3 s).

(** [str.lower] and [str.upper] are left abstract. *)
Section Claims.
Variable str_lower : string -> string.
Variable str_upper : string -> string.

(** [check_additionality(claim)] *)
Definition check_additionality (claim : dict) : res Check :=
  let* project_type := str_method (default (PyStr "") (dict_get claim "project_type")) str_lower in
  let* country := get_method (default (PyDict []) (dict_get claim "location")) "country" (PyStr "") in
  let* methodology := str_method (default (PyStr "") (dict_get claim "methodology")) str_upper in
  let '(s1, flags1) :=
    fold_left (fun acc nat =>
                 let '(s, fl) := acc in
                 if contains nat project_type
                 then (s + 0.2, fl ++ ["high_risk_type:" +:+ nat]) else (s, fl))
              ["landfill_gas"; "hydro"; "grid_solar"; "grid_wind"] (0.0, []) in
  let '(s2, flags2) :=
    if py_in_strs country ["US"; "DE"; "FR"; "GB"; "JP"; "AU"; "CA"] &&
       contains "grid" project_type
    then (s1 + 0.15, flags1 ++ ["wealthy_country_grid:" +:+ Receipt.py_str country])
    else (s1, flags1) in
  let '(s3, flags3) :=
    if negb (String.eqb methodology "") && String.prefix "AM" methodology &&
       (String.length methodology <? 5)%nat
    then (s2 + 0.1, flags2 ++ ["old_methodology:" +:+ methodology])
    else (s2, flags2) in
  let score := clamp_score s3 in
  inr (mkCheck "additionality" (low_risk score) score 0.60
         [("flags", PyList (map PyStr flags3))]).

(** [check_permanence(claim)] *)
Definition check_permanence (claim : dict) : res Check :=
  let* project_type := str_method (default (PyStr "") (dict_get claim "project_type")) str_lower in
  let* country := get_method (default (PyDict []) (dict_get claim "location")) "country" (PyStr "") in
  let duration_years := default (PyInt 0) (dict_get claim "project_duration_years") in
  let is_land_use :=
    existsb (fun t => contains t project_type)
            ["forest"; "redd"; "afforestation"; "reforestation"; "soil"] in
  let* sr1 :=
    (if is_land_use then
       let s := 0.0 + 0.15 in
       let r := ["land_use_project"] in
       let '(s, r) :=
         if py_in_strs country ["BR"; "AU"; "US"; "ID"; "CA"; "RU"]
         then (s + 0.10, r ++ ["fire_prone_region:" +:+ Receipt.py_str country])
         else (s, r) in
       match py_num duration_years with
       | None => inl TypeError
       | Some d =>
           if negb (Qle_bool 10 d)
           then inr (s + 0.15, r ++ ["short_duration:" +:+ Receipt.py_str duration_years +:+ "y"])
           else if negb (Qle_bool 20 d)
           then inr (s + 0.05, r ++ ["medium_duration:" +:+ Receipt.py_str duration_years +:+ "y"])
           else inr (s, r)
       end
     else inr (0.0, [])) in
  let '(s1, r1) := sr1 in
  let '(s2, r2) :=
    if py_in_strs country ["VE"; "MM"; "SD"; "SY"; "AF"]
    then (s1 + 0.20, r1 ++ ["high_political_risk:" +:+ Receipt.py_str country])
    else (s1, r1) in
  let score := clamp_score s2 in
  inr (mkCheck "permanence" (low_risk score) score 0.65
         [("risk", PyFloat score); ("risk_factors", PyList (map PyStr r2))]).

(** [check_leakage(claim)] *)
Definition check_leakage (claim : dict) : res Check :=
  let* project_type := str_method (default (PyStr "") (dict_get claim "project_type")) str_lower in
  let quantity := default (PyInt 0) (dict_get claim "quantity_tco2e") in
  let '(s1, r1) :=
    if contains "redd" project_type then (0.0 + 0.15, ["redd_leakage_risk"]) else (0.0, []) in
  let* sr2 :=
    match py_num quantity with
    | None => inl TypeError
    | Some q =>
        inr (if negb (Qle_bool q 100000)
             then (s1 + 0.10, r1 ++ ["large_claim:" +:+ Receipt.py_str quantity +:+ "tCO2e"])
             else (s1, r1))
    end in
  let '(s2, r2) := sr2 in
  let '(s3, r3) :=
    if contains "avoided" project_type && contains "deforestation" project_type
    then (s2 + 0.10, r2 ++ ["avoided_deforestation_leakage"])
    else (s2, r2) in
  let score := clamp_score s3 in
  inr (mkCheck "leakage" (low_risk score) score 0.55
         [("risk", PyFloat score); ("risk_factors", PyList (map PyStr r3))]).

(** [get_recommendation(fraud_level)] *)
Definition get_recommendation (fraud_level : string) : string :=
  if String.eqb fraud_level "clean" then "approve"
  else if String.eqb fraud_level "suspect" then "manual_review"
  else if String.eqb fraud_level "likely_fraud" then "reject"
  else if String.eqb fraud_level "confirmed_fraud" then "reject"
  else "manual_review".

(** The decision part of [detect_fraud(claim, compression_receipt,
    registry_receipt)]: the five checks in order, the aggregate score, its
    level and the recommendation (the timing, the SLO anomaly and the
    emitted fraud receipt are not embedded). *)
Definition detect_decision (claim compression_receipt registry_receipt : dict)
  : res (list Check * Q * string * string) :=
  let c1 := check_compression_fraud compression_receipt in
  let* c2 := check_double_counting registry_receipt in
  let* c3 := check_additionality claim in
  let* c4 := check_permanence claim in
  let* c5 := check_leakage claim in
  let checks := [c1; c2; c3; c4; c5] in
  let fraud_score := calculate_fraud_score (map fraud_check_of checks) in
  let fraud_level := classify_fraud_level fraud_score in
  inr (checks, fraud_score, fraud_level, get_recommendation fraud_level).

End Claims.
Close Scope Q_scope.
End DetectChecks.

(* ------------------------------------------------------------------ *)
(** ** Concrete instances of the abstract parameters, to run the code *)

(** A toy [json.dumps]: keys in insertion order, strings in single quotes. *)
Fixpoint toy_dumps_val (v : pyval) : string :=
  match v with
  | PyNone => "null"
  | PyBool true => "true"
  | PyBool false => "false"
  | PyInt z => NilZero.string_of_int (Z.to_int z)
  | PyFloat q => float_str q
  | PyStr s => "'" +:+ s +:+ "'"
  | PyList xs =>
      "[" +:+ (fix items (l : list pyval) : string :=
                 match l with
                 | [] => ""
                 | [x] => toy_dumps_val x
                 | x :: l' => toy_dumps_val x +:+ "," +:+ items l'
                 end) xs +:+ "]"
  | PyDict kvs =>
      "{" +:+ (fix entries (l : list (string * pyval)) : string :=
                 match l with
                 | [] => ""
                 | [(k, x)] => k +:+ ":" +:+ toy_dumps_val x
                 | (k, x) :: l' => k +:+ ":" +:+ toy_dumps_val x +:+ "," +:+ entries l'
                 end) kvs +:+ "}"
  end.

Definition toy_dumps (sort_keys : bool) (v : pyval) : string := toy_dumps_val v.

(** A clock that advances one second per reading. *)
Definition toy_clock (n : nat) : datetime := mkDatetime 2026 10 14 12 0 n 0.

(** The state of a fresh process: empty ledger, registry and chain. *)
Definition empty_world : world :=
  {| receipts_file := []; clock_reads := 0; credit_registry := ∅; merkle_hashes := [];
     chain_leaves := []; chain_anchors := [] |}.

(** ASCII [str.lower] and [str.upper]. *)
Definition ascii_lower (c : Ascii.ascii) : Ascii.ascii :=
  let n := Ascii.nat_of_ascii c in
  if (65 <=? n) && (n <=? 90) then Ascii.ascii_of_nat (n + 32) else c.
Definition ascii_upper (c : Ascii.ascii) : Ascii.ascii :=
  let n := Ascii.nat_of_ascii c in
  if (97 <=? n) && (n <=? 122) then Ascii.ascii_of_nat (n - 32) else c.
Fixpoint map_string (f : Ascii.ascii -> Ascii.ascii) (s : string) : string :=
  match s with EmptyString => EmptyString | String c s' => String (f c) (map_string f s') end.
Definition toy_lower := map_string ascii_lower.
Definition toy_upper := map_string ascii_upper.

(** The [valid_claim] fixture of tests/conftest.py. *)
Definition valid_claim : dict :=
  [("claim_id", PyStr "test-valid-001"); ("registry", PyStr "verra");
   ("project_id", PyStr "VCS-2023-12345"); ("vintage_year", PyInt 2023);
   ("quantity_tco2e", PyFloat 1000.0); ("project_type", PyStr "forest_conservation");
   ("methodology", PyStr "VM0007");
   ("location", PyDict [("lat", PyFloat (-3.4653)); ("lon", PyFloat (-62.2159));
                        ("country", PyStr "BR")]);
   ("verification_body", PyStr "SCS Global Services");
   ("issuance_date", PyStr "2023-06-15T00:00:00Z");
   ("retirement_date", PyNone); ("beneficiary", PyNone)].

(* ================================================================== *)
(** * Proofs *)

Module MerkleFacts.
Import Merkle.
Section MerkleFacts.
Variable H : string -> string.

Lemma pair_level_length_le (n : nat) (v : list string) :
  length v <= n -> length (pair_level H v) = length v / 2.
Proof.
  revert v; induction n as [|n IH]; intros v Hn.
  - destruct v; simpl in *; [reflexivity | lia].
  - destruct v as [|a [|b r]]; cbn [length pair_level]; try reflexivity.
    simpl in Hn. rewrite IH by lia.
    replace (S (S (length r))) with (length r + 1 * 2) by lia.
    rewrite Nat.div_add by lia. lia.
Qed.

Lemma pair_level_length (v : list string) :
  length (pair_level H v) = length v / 2.
Proof. apply (pair_level_length_le (length v)); lia. Qed.

Lemma pair_level_nth_le (n : nat) (v : list string) (c : nat) :
  length v <= n -> Nat.even (length v) = true -> c < length v ->
  nth (c / 2) (pair_level H v) "" =
  H (if Nat.even c then nth c v "" +:+ nth (S c) v ""
     else nth (pred c) v "" +:+ nth c v "").
Proof.
  revert v c; induction n as [|n IH]; intros v c Hn Hev Hc.
  - destruct v; simpl in *; lia.
  - destruct v as [|a [|b r]]; simpl in Hc, Hev; try lia; try discriminate.
    destruct c as [|[|c']].
    + reflexivity.
    + reflexivity.
    + replace (S (S c') / 2) with (S (c' / 2)).
      2:{ replace (S (S c')) with (c' + 1 * 2) by lia.
          rewrite Nat.div_add by lia. lia. }
      simpl pair_level. cbn [nth].
      simpl in Hn.
      rewrite (IH r c') by (simpl in *; lia || assumption).
      replace (Nat.even (S (S c'))) with (Nat.even c') by reflexivity.
      destruct (Nat.even c') eqn:Ec; [reflexivity|].
      destruct c' as [|c'']; [discriminate|]. reflexivity.
Qed.

Lemma pad_odd_nth (w : list string) (c : nat) :
  c < length w -> nth c (pad_odd w) "" = nth c w "".
Proof.
  intros Hc. unfold pad_odd. destruct (Nat.odd (length w)); [|reflexivity].
  apply app_nth1; assumption.
Qed.

Lemma pad_odd_length (w : list string) :
  length (pad_odd w) = if Nat.odd (length w) then S (length w) else length w.
Proof.
  unfold pad_odd. destruct (Nat.odd (length w)); [|reflexivity].
  rewrite length_app; simpl; lia.
Qed.

Lemma pad_odd_even (w : list string) : Nat.even (length (pad_odd w)) = true.
Proof.
  rewrite pad_odd_length. destruct (Nat.odd (length w)) eqn:E.
  - rewrite Nat.even_succ. exact E.
  - rewrite <- Nat.negb_odd, E. reflexivity.
Qed.

Lemma pad_odd_gt1_eq (w : list string) :
  1 < length w -> pad_odd_gt1 w = pad_odd w.
Proof.
  intros Hw. unfold pad_odd_gt1, pad_odd.
  replace (1 <? length w) with true by (symmetry; apply Nat.ltb_lt; lia).
  rewrite andb_true_r. reflexivity.
Qed.

Lemma pad_odd_gt1_small (w : list string) :
  length w <= 1 -> pad_odd_gt1 w = w.
Proof.
  intros Hw. unfold pad_odd_gt1.
  replace (1 <? length w) with false by (symmetry; apply Nat.ltb_ge; lia).
  rewrite andb_false_r. reflexivity.
Qed.

Lemma pad_odd_gt1_length (w : list string) :
  length (pad_odd_gt1 w) <= S (length w) /\
  (length w <= 1 -> length (pad_odd_gt1 w) = length w).
Proof.
  split.
  - unfold pad_odd_gt1. destruct (_ && _); [rewrite length_app; simpl|]; lia.
  - intros Hw. rewrite pad_odd_gt1_small by exact Hw. reflexivity.
Qed.

Lemma pad_odd_length_ge (w : list string) : length w <= length (pad_odd w).
Proof. rewrite pad_odd_length. destruct (Nat.odd _); lia. Qed.

Lemma pad_odd_length_le (w : list string) : length (pad_odd w) <= S (length w).
Proof. rewrite pad_odd_length. destruct (Nat.odd _); lia. Qed.

Lemma even_succ_lt (n c : nat) :
  Nat.even n = true -> Nat.even c = true -> c < n -> S c < n.
Proof.
  intros En Ec Hc.
  destruct (Nat.eq_dec (S c) n) as [<-|]; [|lia].
  rewrite Nat.even_succ, <- Nat.negb_even, Ec in En. discriminate.
Qed.

Lemma even_half (n : nat) : Nat.even n = true -> n = 2 * (n / 2).
Proof.
  intros En. apply Nat.even_spec in En as [k ->].
  replace (2 * k) with (k * 2) by lia. rewrite Nat.div_mul by lia. lia.
Qed.

Lemma proof_loop_sound (fr : nat) : forall (fp : nat) (w : list string) (c : nat),
  c < length w -> length w <= fr -> length (pad_odd_gt1 w) <= fp ->
  let r := proof_loop H fp (pad_odd_gt1 w) c in
  length (fst (fst r)) = length (snd (fst r)) /\
  fold_path H (nth c w "") (fst (fst r)) (map PyStr (snd (fst r))) = root_loop H fr w.
Proof.
  induction fr as [|fr IH]; intros fp w c Hc Hfr Hfp; [lia|].
  destruct (le_lt_dec (length w) 1) as [Hs|Hb].
  - rewrite pad_odd_gt1_small in * by exact Hs.
    destruct fp as [|fp]; [lia|].
    cbn [proof_loop root_loop].
    replace (1 <? length w) with false by (symmetry; apply Nat.ltb_ge; lia).
    simpl. split; [reflexivity|].
    destruct w as [|x [|y r]]; simpl in *; try lia.
    destruct c; [reflexivity|lia].
  - rewrite pad_odd_gt1_eq in * by exact Hb.
    pose proof (pad_odd_length_ge w) as Hge.
    pose proof (pad_odd_length_le w) as Hle.
    pose proof (pad_odd_even w) as Hev.
    set (v := pad_odd w) in *.
    destruct fp as [|fp]; [lia|].
    cbn [proof_loop root_loop].
    replace (1 <? length v) with true by (symmetry; apply Nat.ltb_lt; lia).
    replace (1 <? length w) with true by (symmetry; apply Nat.ltb_lt; lia).
    fold v.
    pose proof (even_half (length v) Hev) as Hhalf.
    pose proof (pair_level_length v) as Hpl.
    pose proof (Nat.div_mod c 2 ltac:(lia)) as Hcd.
    pose proof (Nat.mod_upper_bound c 2 ltac:(lia)) as Hcm.
    destruct (proof_loop H fp (pad_odd_gt1 (pair_level H v)) (c / 2))
      as [[p d] wl] eqn:Er.
    assert (IH' := IH fp (pair_level H v) (c / 2)).
    rewrite Er in IH'. cbn [fst snd] in IH'.
    destruct IH' as [IHlen IHfold].
    + lia.
    + lia.
    + destruct (pad_odd_gt1_length (pair_level H v)) as [Hp1 Hp2].
      destruct (le_lt_dec (length (pair_level H v)) 1) as [Hk|Hk].
      * rewrite (Hp2 Hk). lia.
      * lia.
    + rewrite <- IHfold.
      rewrite (pair_level_nth_le (length v) v c (le_n _) Hev ltac:(lia)).
      assert (nth c v "" = nth c w "") as -> by (apply pad_odd_nth; exact Hc).
      destruct (Nat.even c) eqn:Ec; cbn [fst snd].
      * rewrite (nth_error_nth' v "" (n:=S c)) by (apply even_succ_lt; auto; lia).
        split; [simpl; rewrite IHlen; reflexivity|].
        reflexivity.
      * rewrite (nth_error_nth' v "" (n:=pred c)) by lia.
        split; [simpl; rewrite IHlen; reflexivity|].
        assert (nth (pred c) v "" = nth (pred c) w "") as ->.
        { apply pad_odd_nth. lia. }
        reflexivity.
Qed.

Lemma skipn_nth_error {A} (l : list A) (i : nat) (x : A) :
  nth_error l i = Some x -> skipn i l = x :: skipn (S i) l.
Proof.
  revert i; induction l as [|a l IHl]; intros [|i] Hi; simpl in *;
    try discriminate.
  - injection Hi as ->. reflexivity.
  - apply IHl. exact Hi.
Qed.

Lemma verify_loop_fold (d : dict) (dirs : list pyval) (p : list string) :
  dict_get d "directions" = Some (PyList dirs) ->
  forall (i : nat) (cur : string), i + length p <= length dirs ->
  verify_loop H d i cur (map PyStr p) = inr (fold_path H cur p (skipn i dirs)).
Proof.
  intros Hd. induction p as [|s p IHp]; intros i cur Hlen.
  - simpl. destruct (skipn i dirs); reflexivity.
  - simpl in Hlen. cbn [map verify_loop]. unfold getitem. rewrite Hd.
    cbn [py_index].
    destruct (nth_error dirs i) as [x|] eqn:Ex.
    + rewrite (skipn_nth_error dirs i x Ex). cbn [fold_path].
      apply IHp. lia.
    + apply nth_error_None in Ex. lia.
Qed.

(** The loop stops with [IndexError] once a path of strings outruns the
    directions list. *)
Lemma verify_loop_index_error (d : dict) (dirs : list pyval) (p : list string) :
  dict_get d "directions" = Some (PyList dirs) ->
  forall (i : nat) (cur : string), i <= length dirs -> length dirs < i + length p ->
  verify_loop H d i cur (map PyStr p) = inl IndexError.
Proof.
  intros Hd. induction p as [|s p IHp]; intros i cur Hi Hlt.
  - simpl in Hlt. lia.
  - simpl in Hlt. cbn [map verify_loop]. unfold getitem. rewrite Hd.
    cbn [py_index].
    destruct (nth_error dirs i) as [x|] eqn:Ex.
    + assert (i < length dirs) by (apply nth_error_Some; congruence).
      cbn beta iota. apply IHp; lia.
    + reflexivity.
Qed.

(** Iterating a string yields its one-character strings. *)
Lemma iter_string_chars (s : string) :
  map char_str (list_ascii_of_string s) =
  map PyStr (map (fun c => String c EmptyString) (list_ascii_of_string s)).
Proof. rewrite map_map. reflexivity. Qed.

Lemma length_string_chars (s : string) :
  length (map (fun c => String c EmptyString) (list_ascii_of_string s)) = String.length s.
Proof.
  rewrite length_map. induction s as [|c s IHs]; simpl; [reflexivity|]. rewrite IHs. reflexivity.
Qed.

(** Helper for C1: on lists of at least two leaves, every leaf's proof
    verifies against the root. *)
Lemma merkle_proof_verifies_ge2 (hashes : list string) (i : nat) :
  2 <= length hashes -> i < length hashes ->
  verify_merkle_proof H (nth i hashes "") (merkle_proof H hashes i)
                      (merkle_root H hashes) = inr true.
Proof.
  intros H2 Hi. unfold merkle_proof.
  replace (Nat.eqb (length hashes) 0) with false by (symmetry; apply Nat.eqb_neq; lia).
  replace (length hashes <=? i) with false by (symmetry; apply Nat.leb_gt; lia).
  cbn [orb].
  pose proof (proof_loop_sound (length hashes) (length (pad_odd hashes)) hashes i
                Hi (le_n _)) as Hs.
  rewrite pad_odd_gt1_eq in Hs by lia.
  specialize (Hs (le_n _)).
  destruct (proof_loop H (length (pad_odd hashes)) (pad_odd hashes) i)
    as [[p d] wl] eqn:Er.
  cbn [fst snd] in Hs. destruct Hs as [Hlen Hfold].
  unfold verify_merkle_proof. simpl.
  rewrite (verify_loop_fold _ (map PyStr d) p) by (simpl; reflexivity || (rewrite length_map; lia)).
  rewrite skipn_O, Hfold.
  assert (merkle_root H hashes = root_loop H (length hashes) hashes) as ->.
  { destruct hashes as [|a [|b r]]; simpl in H2; try lia. reflexivity. }
  rewrite String.eqb_refl. reflexivity.
Qed.

End MerkleFacts.
End MerkleFacts.


Module MerkleClaims.
Import Merkle MerkleFacts.

(** C1 (code_bug): on a one-leaf list [[h]] the proof of leaf 0 does not
    verify against [merkle_root([h])] (which is [h]) unless [h] is a fixed
    point of [dual_hash(h + h)]: [merkle_proof] pads [[h]] to [[h, h]]
    while [merkle_root] returns [h] unchanged. *)
Theorem merkle_single_leaf_proof_rejected (dual_hash : string -> string) (h : string) :
  dual_hash (h +:+ h) <> h ->
  verify_merkle_proof dual_hash h (merkle_proof dual_hash [h] 0)
                      (merkle_root dual_hash [h]) = inr false.
Proof.
  intros Hne. cbn. f_equal. apply String.eqb_neq. exact Hne.
Qed.

Lemma merkle_single_leaf_proof_rejected_witness :
  toy_hash ("a" +:+ "a") <> "a" /\
  verify_merkle_proof toy_hash "a" (merkle_proof toy_hash ["a"] 0)
                      (merkle_root toy_hash ["a"]) = inr false.
Proof.
  split.
  - intros E. discriminate E.
  - apply merkle_single_leaf_proof_rejected. intros E. discriminate E.
Defined.

(** C9 (code_bug): for a one-leaf list [[h]], [merkle_proof([h], 0)] carries
    the non-empty path [[h]] (direction "right") and the root
    [dual_hash(h + h)], while [merkle_root([h])] is [h]. *)
Theorem merkle_proof_single_leaf_path (dual_hash : string -> string) (h : string) :
  merkle_proof dual_hash [h] 0 =
    PyDict [("valid", PyBool true); ("leaf_hash", PyStr h);
            ("path", PyList [PyStr h]); ("directions", PyList [PyStr "right"]);
            ("root", PyStr (dual_hash (h +:+ h)))] /\
  merkle_root dual_hash [h] = h.
Proof. split; reflexivity. Qed.

(** C7 (counterexample): [verify_merkle_proof] raises on malformed proofs:
    [KeyError('path')] for [{"valid": True}] and [IndexError] when
    [directions] is shorter than [path]. *)
Lemma verify_merkle_proof_raises :
  verify_merkle_proof toy_hash "a" (PyDict [("valid", PyBool true)]) "a"
    = inl (KeyError (PyStr "path")) /\
  verify_merkle_proof toy_hash "a"
    (PyDict [("valid", PyBool true); ("path", PyList [PyStr "b"]);
             ("directions", PyList [])]) "a" = inl IndexError.
Proof. split; reflexivity. Qed.

(** C7 (amended): [verify_merkle_proof] returns [False] without raising
    when the proof's [valid] entry is missing or falsy.  When [valid] is
    truthy it returns normally, with whether the recombined hash equals the
    expected root, when [path] is a list of strings, or a string (read
    character by character), and [directions] a list at least as long; an
    empty path list needs no [directions] at all.  With a truthy [valid]
    it raises [KeyError] when [path] is missing, or when a non-empty path
    of strings has no [directions], [TypeError] when [path] is not
    iterable (None, a bool, an int or a float), and [IndexError] when a
    path of strings is longer than the [directions] list; a proof that is
    not a dict raises [AttributeError]. *)
Theorem verify_merkle_proof_wellformed (dual_hash : string -> string)
    (leaf root : string) (d : dict) :
  (truthy (default PyNone (dict_get d "valid")) = false ->
   verify_merkle_proof dual_hash leaf (PyDict d) root = inr false) /\
  (forall (path : list string) (dirs : list pyval),
     truthy (default PyNone (dict_get d "valid")) = true ->
     dict_get d "path" = Some (PyList (map PyStr path)) ->
     dict_get d "directions" = Some (PyList dirs) ->
     length path <= length dirs ->
     verify_merkle_proof dual_hash leaf (PyDict d) root =
       inr (String.eqb (fold_path dual_hash leaf path dirs) root)) /\
  (forall (path : string) (dirs : list pyval),
     truthy (default PyNone (dict_get d "valid")) = true ->
     dict_get d "path" = Some (PyStr path) ->
     dict_get d "directions" = Some (PyList dirs) ->
     String.length path <= length dirs ->
     verify_merkle_proof dual_hash leaf (PyDict d) root =
       inr (String.eqb (fold_path dual_hash leaf
                          (map (fun c => String c EmptyString) (list_ascii_of_string path))
                          dirs) root)) /\
  (truthy (default PyNone (dict_get d "valid")) = true ->
   dict_get d "path" = Some (PyList []) ->
   verify_merkle_proof dual_hash leaf (PyDict d) root = inr (String.eqb leaf root)) /\
  (truthy (default PyNone (dict_get d "valid")) = true ->
   dict_get d "path" = None ->
   verify_merkle_proof dual_hash leaf (PyDict d) root = inl (KeyError (PyStr "path"))) /\
  (forall (path : list string),
     truthy (default PyNone (dict_get d "valid")) = true ->
     dict_get d "path" = Some (PyList (map PyStr path)) -> path <> [] ->
     dict_get d "directions" = None ->
     verify_merkle_proof dual_hash leaf (PyDict d) root =
       inl (KeyError (PyStr "directions"))) /\
  (forall v,
     truthy (default PyNone (dict_get d "valid")) = true ->
     dict_get d "path" = Some v ->
     v = PyNone \/ (exists b, v = PyBool b) \/ (exists z, v = PyInt z) \/
     (exists q, v = PyFloat q) ->
     verify_merkle_proof dual_hash leaf (PyDict d) root = inl TypeError) /\
  (forall (path : list string) (dirs : list pyval),
     truthy (default PyNone (dict_get d "valid")) = true ->
     dict_get d "path" = Some (PyList (map PyStr path)) ->
     dict_get d "directions" = Some (PyList dirs) ->
     length dirs < length path ->
     verify_merkle_proof dual_hash leaf (PyDict d) root = inl IndexError) /\
  (forall v, (forall kvs, v <> PyDict kvs) ->
     verify_merkle_proof dual_hash leaf v root = inl AttributeError).
Proof.
  split; [|split; [|split; [|split; [|split; [|split; [|split; [|split]]]]]]].
  - intros Hv. unfold verify_merkle_proof. rewrite Hv. reflexivity.
  - intros path dirs Hv Hp Hd Hlen. unfold verify_merkle_proof. rewrite Hv.
    unfold getitem. rewrite Hp. cbn [py_iter].
    rewrite (verify_loop_fold dual_hash d dirs path Hd 0 leaf) by lia.
    rewrite skipn_O. reflexivity.
  - intros path dirs Hv Hp Hd Hlen. unfold verify_merkle_proof. rewrite Hv.
    unfold getitem. rewrite Hp. cbn [py_iter]. rewrite iter_string_chars.
    rewrite (verify_loop_fold dual_hash d dirs _ Hd 0 leaf)
      by (rewrite length_string_chars; lia).
    rewrite skipn_O. reflexivity.
  - intros Hv Hp. unfold verify_merkle_proof. rewrite Hv.
    unfold getitem. rewrite Hp. reflexivity.
  - intros Hv Hp. unfold verify_merkle_proof. rewrite Hv.
    unfold getitem. rewrite Hp. reflexivity.
  - intros path Hv Hp Hne Hd. unfold verify_merkle_proof. rewrite Hv.
    unfold getitem. rewrite Hp. cbn [py_iter].
    destruct path as [|s0 path]; [contradiction|].
    cbn [map verify_loop]. unfold getitem. rewrite Hd. reflexivity.
  - intros v Hv Hp Hkind. unfold verify_merkle_proof. rewrite Hv.
    unfold getitem. rewrite Hp.
    destruct Hkind as [->|[(b & ->)|[(z & ->)|(q & ->)]]]; reflexivity.
  - intros path dirs Hv Hp Hd Hlen. unfold verify_merkle_proof. rewrite Hv.
    unfold getitem. rewrite Hp. cbn [py_iter].
    rewrite (verify_loop_index_error dual_hash d dirs path Hd 0 leaf) by lia.
    reflexivity.
  - intros v Hv. destruct v as [| | | | | |kvs]; try reflexivity.
    exfalso. exact (Hv kvs eq_refl).
Qed.

Lemma verify_merkle_proof_wellformed_witness :
  verify_merkle_proof toy_hash "a"
    (PyDict [("valid", PyBool true); ("path", PyList [PyStr "b"]);
             ("directions", PyList [PyStr "right"])]) "h(ab)" = inr true.
Proof.
  destruct (verify_merkle_proof_wellformed toy_hash "a" "h(ab)"
              [("valid", PyBool true); ("path", PyList [PyStr "b"]);
               ("directions", PyList [PyStr "right"])]) as [_ [Hw _]].
  rewrite (Hw ["b"] [PyStr "right"]); reflexivity.
Defined.

End MerkleClaims.

(* ------------------------------------------------------------------ *)
(** ** The receipt ledger *)

Module DictFacts.

Lemma dict_get_set_eq (d : dict) (k : string) (v : pyval) :
  dict_get (dict_set d k v) k = Some v.
Proof.
  induction d as [|[k' v'] d IH]; simpl.
  - rewrite String.eqb_refl. reflexivity.
  - destruct (String.eqb k k') eqn:E; simpl.
    + rewrite E. reflexivity.
    + rewrite E. exact IH.
Qed.

Lemma dict_get_set_neq (d : dict) (k k' : string) (v : pyval) :
  k' <> k -> dict_get (dict_set d k v) k' = dict_get d k'.
Proof.
  intros Hne. induction d as [|[k0 v0] d IH]; simpl.
  - apply String.eqb_neq in Hne. rewrite Hne. reflexivity.
  - destruct (String.eqb k k0) eqn:E; simpl.
    + apply String.eqb_eq in E. subst k0.
      apply String.eqb_neq in Hne. rewrite Hne. reflexivity.
    + destruct (String.eqb k' k0); [reflexivity | exact IH].
Qed.

Lemma dict_mem_none (d : dict) (k : string) :
  dict_mem d k = false -> dict_get d k = None.
Proof. unfold dict_mem. destruct (dict_get d k); congruence. Qed.

Lemma dict_mem_some (d : dict) (k : string) :
  dict_mem d k = true -> exists v, dict_get d k = Some v.
Proof. unfold dict_mem. destruct (dict_get d k); [eauto|discriminate]. Qed.

Lemma append_dash_nonempty (a r : string) : a +:+ String "-"%char r <> "".
Proof. destruct a; discriminate. Qed.

Lemma isoformat_nonempty (t : datetime) : isoformat t <> "".
Proof. unfold isoformat. apply append_dash_nonempty. Qed.

End DictFacts.

Module LedgerFacts.
Import DictFacts.

Ltac dict_simpl :=
  repeat first
    [ rewrite dict_get_set_eq
    | rewrite dict_get_set_neq by discriminate ].

(** Everything [emit_receipt] does: one record appended, the clock read
    only when [ts] is absent, and the enriched fields. *)
Lemma emit_receipt_shape (dual_hash : string -> string) (json_dumps : bool -> pyval -> string)
    (utc_clock : nat -> datetime) (receipt : dict) (w : world) :
  exists out,
    Core.emit_receipt dual_hash json_dumps utc_clock receipt w =
      ({| receipts_file := receipts_file w ++ [out];
          clock_reads := if dict_mem receipt "ts" then clock_reads w else S (clock_reads w);
          credit_registry := credit_registry w; merkle_hashes := merkle_hashes w;
          chain_leaves := chain_leaves w; chain_anchors := chain_anchors w |}, inr out) /\
    dict_get out "ts" =
      Some (default (PyStr (isoformat (utc_clock (clock_reads w)))) (dict_get receipt "ts")) /\
    dict_get out "tenant_id" =
      Some (default (PyStr GREENPROOF_TENANT) (dict_get receipt "tenant_id")) /\
    dict_get out "payload_hash" =
      match dict_get receipt "payload_hash" with
      | Some v => Some v
      | None => option_map (fun p => PyStr (dual_hash (json_dumps true p)))
                           (dict_get receipt "payload")
      end /\
    (forall k, k <> "ts" -> k <> "tenant_id" -> k <> "payload_hash" ->
               dict_get out k = dict_get receipt k).
Proof.
  unfold Core.emit_receipt, bindM, retM, Core.utc_now, Core.append_line.
  set (r1 := if dict_mem receipt "ts" then receipt
             else dict_set receipt "ts" (PyStr (isoformat (utc_clock (clock_reads w))))).
  assert (Hr1ts : dict_get r1 "ts" =
     Some (default (PyStr (isoformat (utc_clock (clock_reads w)))) (dict_get receipt "ts"))).
  { unfold r1. destruct (dict_mem receipt "ts") eqn:E.
    - destruct (dict_mem_some _ _ E) as [v Hv]. rewrite Hv. reflexivity.
    - rewrite dict_get_set_eq, (dict_mem_none _ _ E). reflexivity. }
  assert (Hr1o : forall k, k <> "ts" -> dict_get r1 k = dict_get receipt k).
  { intros k Hk. unfold r1. destruct (dict_mem receipt "ts"); [reflexivity|].
    apply dict_get_set_neq. exact Hk. }
  set (r2 := if dict_mem r1 "tenant_id" then r1
             else dict_set r1 "tenant_id" (PyStr GREENPROOF_TENANT)).
  assert (Hr2t : dict_get r2 "tenant_id" =
     Some (default (PyStr GREENPROOF_TENANT) (dict_get receipt "tenant_id"))).
  { unfold r2. rewrite <- (Hr1o "tenant_id") by discriminate.
    destruct (dict_mem r1 "tenant_id") eqn:E.
    - destruct (dict_mem_some _ _ E) as [v Hv]. rewrite Hv. reflexivity.
    - rewrite dict_get_set_eq, (dict_mem_none _ _ E). reflexivity. }
  assert (Hr2o : forall k, k <> "tenant_id" -> dict_get r2 k = dict_get r1 k).
  { intros k Hk. unfold r2. destruct (dict_mem r1 "tenant_id"); [reflexivity|].
    apply dict_get_set_neq. exact Hk. }
  set (r3 := if negb (dict_mem r2 "payload_hash") && dict_mem r2 "payload"
             then dict_set r2 "payload_hash"
                    (PyStr (dual_hash (json_dumps true (default PyNone (dict_get r2 "payload")))))
             else r2).
  assert (Hp : dict_get r2 "payload" = dict_get receipt "payload").
  { rewrite Hr2o, Hr1o by discriminate. reflexivity. }
  assert (Hph : dict_get r2 "payload_hash" = dict_get receipt "payload_hash").
  { rewrite Hr2o, Hr1o by discriminate. reflexivity. }
  exists r3. split.
  { destruct (dict_mem receipt "ts"); reflexivity. }
  split; [|split; [|split]].
  - unfold r3. destruct (_ && _).
    + rewrite dict_get_set_neq by discriminate. rewrite Hr2o by discriminate. exact Hr1ts.
    + rewrite Hr2o by discriminate. exact Hr1ts.
  - unfold r3. destruct (_ && _).
    + rewrite dict_get_set_neq by discriminate. exact Hr2t.
    + exact Hr2t.
  - unfold r3. unfold dict_mem. rewrite ?Hph, ?Hp.
    destruct (dict_get receipt "payload_hash") as [v|] eqn:E1;
      destruct (dict_get receipt "payload") as [q|] eqn:E2; simpl;
      try (rewrite Hph; try rewrite E1; reflexivity).
      all: rewrite dict_get_set_eq; reflexivity.
  - intros k H1 H2 H3. unfold r3. destruct (_ && _).
    + rewrite dict_get_set_neq by exact H3. rewrite Hr2o by exact H2. apply Hr1o. exact H1.
    + rewrite Hr2o by exact H2. apply Hr1o. exact H1.
Qed.

End LedgerFacts.

Module LedgerClaims.
Import DictFacts LedgerFacts Receipt.

(** C5 (counterexample): [emit_receipt({})] adds [ts] and [tenant_id] but
    no [payload_hash]. *)
Lemma emit_receipt_empty_no_payload_hash :
  snd (Core.emit_receipt toy_hash toy_dumps toy_clock [] empty_world) =
    inr [("ts", PyStr "2026-10-14T12:00:00+00:00"); ("tenant_id", PyStr "greenproof-climate")].
Proof. vm_compute. reflexivity. Qed.

(** C5 (amended): [emit_receipt] appends one record and returns it; the
    record keeps every field the caller supplied, adds [ts] (the current
    UTC time's isoformat) when absent, [tenant_id] (the default tenant) when
    absent, and [payload_hash] (the hash of the canonical serialization of
    [payload]) only when [payload_hash] is absent and [payload] present.  In
    particular [emit_receipt({})] returns a record with non-empty [ts] and
    [tenant_id] and no [payload_hash]. *)
Theorem emit_receipt_enriched (dual_hash : string -> string)
    (json_dumps : bool -> pyval -> string) (utc_clock : nat -> datetime)
    (receipt : dict) (w : world) :
  (exists out w',
     Core.emit_receipt dual_hash json_dumps utc_clock receipt w = (w', inr out) /\
     receipts_file w' = receipts_file w ++ [out] /\
     (forall k v, dict_get receipt k = Some v -> dict_get out k = Some v) /\
     (dict_get receipt "ts" = None ->
      dict_get out "ts" = Some (PyStr (isoformat (utc_clock (clock_reads w))))) /\
     (dict_get receipt "tenant_id" = None ->
      dict_get out "tenant_id" = Some (PyStr GREENPROOF_TENANT)) /\
     (dict_get receipt "payload_hash" = None ->
      dict_get out "payload_hash" =
        option_map (fun p => PyStr (dual_hash (json_dumps true p))) (dict_get receipt "payload"))) /\
  (exists out ts,
     snd (Core.emit_receipt dual_hash json_dumps utc_clock [] w) = inr out /\
     dict_get out "ts" = Some (PyStr ts) /\ ts <> "" /\
     dict_get out "tenant_id" = Some (PyStr GREENPROOF_TENANT) /\ GREENPROOF_TENANT <> "" /\
     dict_get out "payload_hash" = None).
Proof.
  split.
  - destruct (emit_receipt_shape dual_hash json_dumps utc_clock receipt w)
      as (out & Heq & Hts & Hten & Hph & Hoth).
    rewrite Heq. eexists out, _. split; [reflexivity|]. split; [reflexivity|].
    split; [|split; [|split]].
    + intros k v Hk.
      destruct (String.eqb_spec k "ts") as [->|N1];
        [rewrite Hts, Hk; reflexivity|].
      destruct (String.eqb_spec k "tenant_id") as [->|N2];
        [rewrite Hten, Hk; reflexivity|].
      destruct (String.eqb_spec k "payload_hash") as [->|N3];
        [rewrite Hph, Hk; reflexivity|].
      rewrite Hoth by assumption. exact Hk.
    + intros E. rewrite Hts, E. reflexivity.
    + intros E. rewrite Hten, E. reflexivity.
    + intros E. rewrite Hph, E. reflexivity.
  - destruct (emit_receipt_shape dual_hash json_dumps utc_clock [] w)
      as (out & Heq & Hts & Hten & Hph & _).
    exists out, (isoformat (utc_clock (clock_reads w))).
    rewrite Heq. cbn in Hts, Hten, Hph.
    repeat split; try assumption.
    + apply isoformat_nonempty.
    + discriminate.
Qed.

(** C8 (counterexample): [emit_receipt] appends a receipt of unknown
    [receipt_type], which [validate_receipt] rejects. *)
Lemma emit_receipt_appends_unknown_type :
  validate_receipt [("receipt_type", PyStr "bogus")] =
    inr (false, ["unknown receipt_type: bogus"]) /\
  receipts_file (fst (Core.emit_receipt toy_hash toy_dumps toy_clock
                        [("receipt_type", PyStr "bogus")] empty_world)) =
    [[("receipt_type", PyStr "bogus"); ("ts", PyStr "2026-10-14T12:00:00+00:00");
      ("tenant_id", PyStr "greenproof-climate")]].
Proof. split; vm_compute; reflexivity. Qed.

(** C8 (amended): [validate_receipt] reports a missing [receipt_type], an
    unknown one, and otherwise whether every required field of its schema is
    present, listing the missing ones in schema order; but [emit_receipt]
    does not validate: every record, well-formed or not, is appended to the
    ledger. *)
Theorem validate_receipt_not_enforced (dual_hash : string -> string)
    (json_dumps : bool -> pyval -> string) (utc_clock : nat -> datetime)
    (receipt : dict) (w : world) :
  (exists out w',
     Core.emit_receipt dual_hash json_dumps utc_clock receipt w = (w', inr out) /\
     receipts_file w' = receipts_file w ++ [out]) /\
  (dict_get receipt "receipt_type" = None ->
   validate_receipt receipt = inr (false, ["receipt_type missing"])) /\
  (forall s, dict_get receipt "receipt_type" = Some (PyStr s) -> s <> "" ->
   schema_lookup s RECEIPT_SCHEMAS = None ->
   validate_receipt receipt = inr (false, ["unknown receipt_type: " +:+ s])) /\
  (forall s sc, dict_get receipt "receipt_type" = Some (PyStr s) ->
   schema_lookup s RECEIPT_SCHEMAS = Some sc ->
   validate_receipt receipt =
     inr (forallb (dict_mem receipt) (required_fields sc),
          filter (fun f => negb (dict_mem receipt f)) (required_fields sc))).
Proof.
  split; [|split; [|split]].
  - destruct (emit_receipt_shape dual_hash json_dumps utc_clock receipt w)
      as (out & Heq & _). rewrite Heq. eauto.
  - intros E. unfold validate_receipt. rewrite E. reflexivity.
  - intros s E Hne Hs. unfold validate_receipt. rewrite E. cbn [default truthy id].
    rewrite negb_involutive.
    replace (String.eqb s "") with false by (symmetry; apply String.eqb_neq; exact Hne).
    lazy beta iota. rewrite Hs. reflexivity.
  - intros s sc E Hs. unfold validate_receipt. rewrite E. cbn [default truthy id].
    rewrite negb_involutive.
    destruct (String.eqb_spec s "") as [->|_].
    + cbn in Hs. discriminate.
    + lazy beta iota. rewrite Hs. f_equal. f_equal.
      induction (required_fields sc) as [|f fs IH]; [reflexivity|].
      cbn. destruct (dict_mem receipt f); cbn; [exact IH|reflexivity].
Qed.

Lemma validate_receipt_not_enforced_witness :
  validate_receipt [("receipt_type", PyStr "anchor"); ("ts", PyStr "t")] =
    inr (false, ["tenant_id"; "payload_hash"; "merkle_root"; "leaf_count"; "anchor_type"]).
Proof.
  destruct (validate_receipt_not_enforced toy_hash toy_dumps toy_clock
              [("receipt_type", PyStr "anchor"); ("ts", PyStr "t")] empty_world)
    as (_ & _ & _ & H4).
  rewrite (H4 "anchor" (mkSchema "anchor"
      ["ts"; "tenant_id"; "payload_hash"; "merkle_root"; "leaf_count"; "anchor_type"]
      ["previous_anchor"; "chain_height"])); reflexivity.
Defined.

End LedgerClaims.

(* ------------------------------------------------------------------ *)
(** ** The double-count registry *)

Module RegistryFacts.
Import DictFacts LedgerFacts DoubleCount.

Lemma scan_unique_existsb (registry owner_hash : string) (existing : list occurrence) :
  scan_unique registry owner_hash existing =
  negb (existsb (fun o => negb (String.eqb (occ_registry o) registry) ||
                          negb (String.eqb (occ_owner_hash o) owner_hash)) existing).
Proof.
  induction existing as [|o rest IH]; [reflexivity|].
  cbn [scan_unique existsb]. destruct (_ || _); [reflexivity|exact IH].
Qed.

(** What one call of [register_credit] does to the state. *)
Lemma register_credit_shape (dual_hash : string -> string)
    (json_dumps : bool -> pyval -> string) (utc_clock : nat -> datetime)
    (credit_id registry owner_hash tenant_id : string) (w : world) :
  let existing := default [] (credit_registry w !! credit_id) in
  let credit_hash := dual_hash (json_dumps true
        (PyDict [("credit_id", PyStr credit_id); ("registry", PyStr registry);
                 ("owner_hash", PyStr owner_hash)])) in
  let u := scan_unique registry owner_hash existing in
  exists dc w',
    credit_registry w' =
      <[credit_id := existing ++ [mkOccurrence registry owner_hash credit_hash "active"]]>
        (credit_registry w) /\
    dict_get dc "receipt_type" = Some (PyStr "double_count") /\
    dict_get dc "is_unique" = Some (PyBool u) /\
    (u = true -> exists res,
       register_credit dual_hash json_dumps utc_clock credit_id registry owner_hash tenant_id w
         = (w', inr res) /\
       receipts_file w' = receipts_file w ++ [dc] /\
       dict_get res "is_unique" = Some (PyBool true)) /\
    (u = false -> exists an msg,
       register_credit dual_hash json_dumps utc_clock credit_id registry owner_hash tenant_id w
         = (w', inl (StopRule msg "critical")) /\
       receipts_file w' = receipts_file w ++ [dc; an] /\
       dict_get an "receipt_type" = Some (PyStr "anomaly") /\
       dict_get an "classification" = Some (PyStr "critical") /\
       dict_get an "action" = Some (PyStr "halt")).
Proof.
  intros existing credit_hash u.
  assert (Hu : scan_unique registry owner_hash existing = u) by reflexivity.
  clearbody u.
  unfold register_credit, bindM, get_world, set_registry_entry, push_merkle_hash, retM.
  cbn [fst snd credit_registry merkle_hashes receipts_file clock_reads chain_leaves chain_anchors].
  fold existing. fold credit_hash. rewrite Hu.
  unfold DoubleCount.emit_receipt.
  match goal with
  | |- context [Core.emit_receipt dual_hash json_dumps utc_clock ?r ?w1] =>
      destruct (emit_receipt_shape dual_hash json_dumps utc_clock r w1)
        as (dc & Hdc & _ & _ & _ & Hoth);
      rewrite Hdc
  end.
  assert (Hdt : dict_get dc "receipt_type" = Some (PyStr "double_count"))
    by (rewrite Hoth by discriminate; reflexivity).
  assert (Hdu : dict_get dc "is_unique" = Some (PyBool u))
    by (rewrite Hoth by discriminate; reflexivity).
  destruct u.
  - cbn [negb].
    eexists dc, _. split; [|split; [exact Hdt|split; [exact Hdu|split]]].
    2: { intros _. eexists. split; [reflexivity|]. split; reflexivity. }
    + reflexivity.
    + discriminate.
  - cbn beta iota. unfold stoprule_double_count, bindM, raiseM, emit_anomaly_receipt,
      Core.emit_anomaly_receipt.
    cbn [negb].
    match goal with
    | |- context [Core.emit_receipt dual_hash json_dumps utc_clock ?r ?w1] =>
        destruct (emit_receipt_shape dual_hash json_dumps utc_clock r w1)
          as (an & Han & _ & _ & _ & Hoa);
        rewrite Han
    end.
    cbn beta iota.
    eexists dc, _. split; [|split; [exact Hdt|split; [exact Hdu|split]]].
    3: { intros _. eexists an, _. split; [reflexivity|].
         split; [cbn [receipts_file]; rewrite <- app_assoc; reflexivity|].
         split; [|split]; rewrite Hoa by discriminate; reflexivity. }
    + reflexivity.
    + discriminate.
Qed.

End RegistryFacts.

(* ------------------------------------------------------------------ *)
Module RegistryClaims.
Import DictFacts LedgerFacts DoubleCount RegistryFacts.

(** C3: for every call [register_credit(credit_id, registry, owner_hash)]:
    whatever the outcome, the registry entry of [credit_id] becomes the
    previous history with the new record appended and every other entry is
    unchanged; a returned result has [is_unique] true and then no earlier
    record of [credit_id] differs in registry or owner; and when no earlier
    record differs, the call returns, with [is_unique] true.  The
    double_count receipt it appends carries [is_unique] = no record
    differs. *)
Theorem register_credit_is_unique_history (dual_hash : string -> string)
    (json_dumps : bool -> pyval -> string) (utc_clock : nat -> datetime)
    (credit_id registry owner_hash tenant_id : string) (w : world) :
  let existing := default [] (credit_registry w !! credit_id) in
  let credit_hash := dual_hash (json_dumps true
        (PyDict [("credit_id", PyStr credit_id); ("registry", PyStr registry);
                 ("owner_hash", PyStr owner_hash)])) in
  let differs := existsb (fun o => negb (String.eqb (occ_registry o) registry) ||
                                   negb (String.eqb (occ_owner_hash o) owner_hash)) existing in
  let call := register_credit dual_hash json_dumps utc_clock
                credit_id registry owner_hash tenant_id w in
  credit_registry (fst call) =
    <[credit_id := existing ++ [mkOccurrence registry owner_hash credit_hash "active"]]>
      (credit_registry w) /\
  (exists dc, receipts_file (fst call) = receipts_file w ++ [dc] ++
                drop (S (length (receipts_file w))) (receipts_file (fst call)) /\
              dict_get dc "receipt_type" = Some (PyStr "double_count") /\
              dict_get dc "is_unique" = Some (PyBool (negb differs))) /\
  (forall res, snd call = inr res ->
     dict_get res "is_unique" = Some (PyBool true) /\ differs = false) /\
  (differs = false -> exists res, snd call = inr res /\
     dict_get res "is_unique" = Some (PyBool true)).
Proof.
  intros existing credit_hash differs call.
  pose proof (register_credit_shape dual_hash json_dumps utc_clock
                credit_id registry owner_hash tenant_id w) as H.
  cbv zeta in H. rewrite scan_unique_existsb in H. fold existing credit_hash differs in H.
  destruct H as (dc & w' & Hreg & Hdt & Hdu & Ht & Hf).
  destruct differs eqn:Ed; cbn [negb] in *.
  - destruct (Hf eq_refl) as (an & msg & Hcall & Hfile & _).
    unfold call; rewrite Hcall; cbn [fst snd].
    split; [exact Hreg|]. split; [|split; [intros res Hr; discriminate|discriminate]].
    exists dc. rewrite Hfile. split; [|split; assumption].
    f_equal. cbn [app]. f_equal. symmetry.
    clear. induction (receipts_file w) as [|x l IH]; [reflexivity|exact IH].
  - destruct (Ht eq_refl) as (res & Hcall & Hfile & Hres).
    unfold call; rewrite Hcall; cbn [fst snd].
    split; [exact Hreg|]. split; [|split].
    + exists dc. rewrite Hfile. split; [|split; assumption].
      rewrite drop_ge; [rewrite app_nil_r; reflexivity|].
      rewrite length_app. cbn [length]. lia.
    + intros r Hr. injection Hr as <-. split; [exact Hres|reflexivity].
    + intros _. exists res. split; [reflexivity|exact Hres].
Qed.

(** C2: when an earlier record of [credit_id] differs in registry or owner,
    [register_credit] raises [StopRule] with classification critical, and
    the ledger it leaves ends with the double_count receipt followed by an
    anomaly receipt with classification critical and action halt: the
    anomaly is appended before the exception is raised.  Conversely every
    exception raised by [register_credit] is such a [StopRule], returned with
    that anomaly already in the ledger. *)
Theorem register_credit_halts_after_anomaly (dual_hash : string -> string)
    (json_dumps : bool -> pyval -> string) (utc_clock : nat -> datetime)
    (credit_id registry owner_hash tenant_id : string) (w : world) :
  let existing := default [] (credit_registry w !! credit_id) in
  let differs := existsb (fun o => negb (String.eqb (occ_registry o) registry) ||
                                   negb (String.eqb (occ_owner_hash o) owner_hash)) existing in
  let call := register_credit dual_hash json_dumps utc_clock
                credit_id registry owner_hash tenant_id w in
  (differs = true -> exists msg, snd call = inl (StopRule msg "critical")) /\
  (forall e, snd call = inl e ->
     differs = true /\
     exists msg dc an,
       e = StopRule msg "critical" /\
       receipts_file (fst call) = receipts_file w ++ [dc; an] /\
       dict_get dc "receipt_type" = Some (PyStr "double_count") /\
       dict_get an "receipt_type" = Some (PyStr "anomaly") /\
       dict_get an "classification" = Some (PyStr "critical") /\
       dict_get an "action" = Some (PyStr "halt")).
Proof.
  intros existing differs call.
  pose proof (register_credit_shape dual_hash json_dumps utc_clock
                credit_id registry owner_hash tenant_id w) as H.
  cbv zeta in H. rewrite scan_unique_existsb in H. fold existing differs in H.
  destruct H as (dc & w' & _ & Hdt & _ & Ht & Hf).
  destruct differs eqn:Ed; cbn [negb] in *.
  - destruct (Hf eq_refl) as (an & msg & Hcall & Hfile & Ha1 & Ha2 & Ha3).
    unfold call; rewrite Hcall; cbn [fst snd].
    split; [intros _; exists msg; reflexivity|].
    intros e He. injection He as <-. split; [reflexivity|].
    exists msg, dc, an. repeat split; assumption.
  - destruct (Ht eq_refl) as (res & Hcall & _ & _).
    unfold call; rewrite Hcall; cbn [fst snd].
    split; [discriminate|]. intros e He; discriminate.
Qed.

End RegistryClaims.

(* ------------------------------------------------------------------ *)
Module ChainFacts.
Import LedgerFacts.

(** What one [anchor_chain] call does to the state. *)
Lemma anchor_chain_shape (dual_hash : string -> string)
    (json_dumps : bool -> pyval -> string) (utc_clock : nat -> datetime)
    (anchor_type tenant_id : string) (w : world) :
  let a := mkAnchor (length (chain_anchors w))
             (Merkle.merkle_root dual_hash (chain_leaves w)) (length (chain_leaves w))
             anchor_type
             (match last (chain_anchors w) with
              | Some p => Some (anchor_merkle_root p) | None => None end) in
  exists rc,
    ProofChain.anchor_chain dual_hash json_dumps utc_clock anchor_type tenant_id w =
      ({| receipts_file := receipts_file w ++ [rc]; clock_reads := S (clock_reads w);
          credit_registry := credit_registry w; merkle_hashes := merkle_hashes w;
          chain_leaves := chain_leaves w; chain_anchors := chain_anchors w ++ [a] |},
       inr (ProofChain.anchor_dict a)) /\
    dict_get rc "receipt_type" = Some (PyStr "anchor").
Proof.
  intros a.
  unfold ProofChain.anchor_chain, bindM, get_world, push_anchor, retM.
  cbn [fst snd receipts_file clock_reads credit_registry merkle_hashes
       chain_leaves chain_anchors].
  match goal with
  | |- context [Core.emit_receipt dual_hash json_dumps utc_clock ?r ?w1] =>
      destruct (emit_receipt_shape dual_hash json_dumps utc_clock r w1)
        as (rc & Hrc & _ & _ & _ & Hoth);
      rewrite Hrc
  end.
  exists rc. split.
  - reflexivity.
  - rewrite Hoth by discriminate. reflexivity.
Qed.

End ChainFacts.

Module ChainClaims.
Import ChainFacts.

(** C6 (from the spec's [anchor]): two consecutive [anchor_chain] calls, with
    no receipt emitted or leaf added between them, return two anchors [a1]
    and [a2], appended in that order to the chain, with the same Merkle root
    (the root of the current leaves) and leaf count, heights [h] and [h+1],
    and [a2]'s previous anchor equal to [a1]'s root; each call appends one
    receipt of type anchor to the ledger. *)
Theorem anchor_chain_twice_linked (dual_hash : string -> string)
    (json_dumps : bool -> pyval -> string) (utc_clock : nat -> datetime)
    (anchor_type tenant_id : string) (w : world) :
  let call1 := ProofChain.anchor_chain dual_hash json_dumps utc_clock anchor_type tenant_id w in
  let call2 := ProofChain.anchor_chain dual_hash json_dumps utc_clock anchor_type tenant_id
                 (fst call1) in
  exists a1 a2 rc1 rc2,
    snd call1 = inr (ProofChain.anchor_dict a1) /\
    snd call2 = inr (ProofChain.anchor_dict a2) /\
    chain_anchors (fst call2) = chain_anchors w ++ [a1; a2] /\
    anchor_merkle_root a1 = Merkle.merkle_root dual_hash (chain_leaves w) /\
    anchor_merkle_root a2 = anchor_merkle_root a1 /\
    anchor_leaf_count a2 = anchor_leaf_count a1 /\
    anchor_height a2 = S (anchor_height a1) /\
    previous_anchor a2 = Some (anchor_merkle_root a1) /\
    receipts_file (fst call2) = receipts_file w ++ [rc1; rc2] /\
    dict_get rc1 "receipt_type" = Some (PyStr "anchor") /\
    dict_get rc2 "receipt_type" = Some (PyStr "anchor").
Proof.
  intros call1 call2.
  destruct (anchor_chain_shape dual_hash json_dumps utc_clock anchor_type tenant_id w)
    as (rc1 & H1 & T1).
  unfold call2, call1. rewrite H1. cbn [fst snd].
  match goal with
  | |- context [ProofChain.anchor_chain dual_hash json_dumps utc_clock
                  anchor_type tenant_id ?w1] =>
      destruct (anchor_chain_shape dual_hash json_dumps utc_clock anchor_type tenant_id w1)
        as (rc2 & H2 & T2);
      rewrite H2
  end.
  cbn [fst snd receipts_file chain_anchors chain_leaves] in *.
  do 4 eexists. split; [reflexivity|]. split; [reflexivity|].
  split; [rewrite <- app_assoc; reflexivity|].
  split; [reflexivity|]. split; [reflexivity|]. split; [reflexivity|].
  split; [cbn [anchor_height]; rewrite length_app; cbn [length]; lia|].
  split; [cbn [previous_anchor]; rewrite last_snoc; reflexivity|].
  split; [rewrite <- app_assoc; reflexivity|].
  split; eassumption.
Qed.

End ChainClaims.

(* ------------------------------------------------------------------ *)
Module DetectFacts.
Import Detect.
Open Scope Q_scope.

Lemma fraud_weight_pos (t : string) : 0 < fraud_weight t.
Proof.
  unfold fraud_weight, FRAUD_WEIGHTS, q_lookup.
  repeat (destruct (String.eqb _ _); [cbn; reflexivity|]). cbn; reflexivity.
Qed.

Lemma Qle_bool_true (a b : Q) : Qle_bool a b = true <-> a <= b.
Proof. apply Qle_bool_iff. Qed.

Lemma py_max_ge_r (a b : Q) : b <= py_max a b.
Proof.
  unfold py_max. destruct (Qle_bool b a) eqn:E.
  - apply Qle_bool_true. exact E.
  - apply Qle_refl.
Qed.

Lemma py_max_Qmax (a b : Q) : py_max a b == Qmax a b.
Proof.
  unfold py_max. destruct (Qle_bool b a) eqn:E.
  - symmetry. apply Qminmax.Q.max_l. apply Qle_bool_true. exact E.
  - symmetry. apply Qminmax.Q.max_r.
    assert (~ b <= a) as Hn by (intros Hle; apply Qle_bool_true in Hle; congruence).
    apply Qlt_le_weak, Qnot_le_lt, Hn.
Qed.

Lemma py_min_one (x : Q) : x <= 1 -> py_min 1.0 x == x.
Proof.
  intros Hx. unfold py_min. destruct (Qle_bool 1.0 x) eqn:E.
  - apply Qle_bool_true in E. apply Qle_antisym; [exact E|].
    eapply Qle_trans; [exact Hx|apply Qle_bool_true; reflexivity].
  - reflexivity.
Qed.

(** The loop of [calculate_fraud_score] computes the two sums and whether a
    high-confidence critical check was seen. *)
Lemma fold_score_step (checks : list FraudCheck) :
  forall ws tw mc,
  let r := fold_left score_step checks (ws, tw, mc) in
  fst (fst r) == ws + spec_weighted_sum checks /\
  snd (fst r) == tw + spec_total_weight checks /\
  Qle_bool 0.80 (snd r) = Qle_bool 0.80 mc || existsb spec_critical checks.
Proof.
  induction checks as [|c rest IH]; intros ws tw mc r.
  - cbn in r. subst r. cbn [fst snd spec_weighted_sum spec_total_weight fold_right existsb].
    split; [ring|]. split; [ring|]. rewrite orb_false_r. reflexivity.
  - subst r. cbn [fold_left score_step].
    destruct (IH (ws + score c * (fraud_weight (check_type c) * confidence c))
                 (tw + fraud_weight (check_type c) * confidence c)
                 (if Qle_bool 0.90 (confidence c) && Qle_bool 0.80 (score c)
                  then py_max mc (score c) else mc)) as (H1 & H2 & H3).
    split; [|split].
    + rewrite H1. cbn [spec_weighted_sum fold_right]. unfold spec_weighted_sum. ring.
    + rewrite H2. cbn [spec_total_weight fold_right]. unfold spec_total_weight. ring.
    + rewrite H3. cbn [existsb]. unfold spec_critical.
      destruct (Qle_bool 0.90 (confidence c) && Qle_bool 0.80 (score c)) eqn:E.
      * apply andb_true_iff in E as [_ E].
        assert (Qle_bool 0.80 (py_max mc (score c)) = true) as ->.
        { apply Qle_bool_true. eapply Qle_trans; [apply Qle_bool_true, E|apply py_max_ge_r]. }
        destruct (Qle_bool 0.80 mc); reflexivity.
      * reflexivity.
Qed.

Lemma spec_sums_bounds (checks : list FraudCheck) :
  Forall in_range checks ->
  0 <= spec_weighted_sum checks <= spec_total_weight checks.
Proof.
  induction 1 as [|c rest [[Hs0 Hs1] [Hc0 Hc1]] _ [IH0 IH1]].
  - split; apply Qle_refl.
  - cbn [spec_weighted_sum spec_total_weight fold_right].
    fold (spec_weighted_sum rest). fold (spec_total_weight rest).
    assert (Hw : 0 <= fraud_weight (check_type c) * confidence c)
      by (apply Qmult_le_0_compat; [apply Qlt_le_weak, fraud_weight_pos|exact Hc0]).
    pose proof (Qmult_le_0_compat _ _ Hs0 Hw) as Hp.
    pose proof (Qmult_le_compat_r _ _ _ Hs1 Hw) as Hq.
    split; lra.
Qed.

Lemma spec_critical_pos (checks : list FraudCheck) :
  Forall in_range checks -> existsb spec_critical checks = true ->
  0 < spec_total_weight checks.
Proof.
  intros Hr. pose proof (spec_sums_bounds _ Hr) as _.
  induction Hr as [|c rest [[Hs0 Hs1] [Hc0 Hc1]] Hrest IH]; [discriminate|].
  cbn [existsb spec_total_weight fold_right]. fold (spec_total_weight rest).
  pose proof (spec_sums_bounds _ Hrest) as [_ _].
  assert (Hw : 0 <= fraud_weight (check_type c) * confidence c)
    by (apply Qmult_le_0_compat; [apply Qlt_le_weak, fraud_weight_pos|exact Hc0]).
  pose proof (spec_sums_bounds _ Hrest) as [Hn Hnd].
  intros Hor. apply orb_true_iff in Hor as [Hc|Hc].
  - unfold spec_critical in Hc. apply andb_true_iff in Hc as [Hc _].
    apply Qle_bool_true in Hc.
    assert (0 < fraud_weight (check_type c) * confidence c).
    { apply Qmult_lt_0_compat; [apply fraud_weight_pos|]. lra. }
    lra.
  - specialize (IH Hc). lra.
Qed.

Close Scope Q_scope.
End DetectFacts.

Module DetectClaims.
Import Detect DetectFacts.
Open Scope Q_scope.

(** C4: for checks whose scores and confidences lie in [0, 1], with
    [num] = sum of score * base weight * confidence and [den] = sum of base
    weight * confidence, [calculate_fraud_score] is 0 when [den] is 0 (in
    particular for the empty list), is [num / den] when no check has
    confidence >= 0.90 and score >= 0.80, and is [max(num / den, 0.6)]
    (with [den] non-zero) when some check has. *)
Theorem calculate_fraud_score_weighted_average (checks : list FraudCheck)
    (Hrange : Forall in_range checks) :
  let num := spec_weighted_sum checks in
  let den := spec_total_weight checks in
  (den == 0 -> calculate_fraud_score checks == 0) /\
  (existsb spec_critical checks = false -> ~ den == 0 ->
     calculate_fraud_score checks == num / den) /\
  (existsb spec_critical checks = true ->
     ~ den == 0 /\ calculate_fraud_score checks == Qmax (num / den) 0.6).
Proof.
  intros num den.
  pose proof (spec_sums_bounds _ Hrange) as [Hn0 Hnd].
  assert (Hcrit : existsb spec_critical checks = true -> 0 < den)
    by (apply spec_critical_pos; exact Hrange).
  assert (Hbase : ~ den == 0 -> num / den <= 1).
  { intros Hd. apply Qle_shift_div_r.
    - destruct (Qle_lt_or_eq _ _ (Qle_trans _ _ _ Hn0 Hnd)) as [Hlt|Heq];
        [exact Hlt|exfalso; apply Hd; symmetry; exact Heq].
    - rewrite Qmult_1_l. exact Hnd. }
  destruct checks as [|c0 rest].
  - split; [intros _; reflexivity|]. split; [|discriminate].
    intros _ Hd. exfalso. apply Hd. reflexivity.
  - unfold calculate_fraud_score.
    pose proof (fold_score_step (c0 :: rest) 0.0 0.0 0.0) as Hf. cbv zeta in Hf.
    destruct (fold_left score_step (c0 :: rest) (0.0, 0.0, 0.0)) as [[ws tw] mc].
    cbn [fst snd] in Hf. destruct Hf as (Hws & Htw & Hmc).
    fold num in Hws. fold den in Htw.
    assert (Hws' : ws == num) by (rewrite Hws; ring).
    assert (Htw' : tw == den) by (rewrite Htw; ring).
    replace (Qle_bool 0.80 0.0) with false in Hmc by reflexivity.
    rewrite orb_false_l in Hmc. rewrite Hmc.
    destruct (Qeq_bool tw 0) eqn:Etw.
    + apply Qeq_bool_iff in Etw. rewrite Htw' in Etw.
      split; [intros _; reflexivity|]. split.
      * intros _ Hd. contradiction.
      * intros Hc. specialize (Hcrit Hc). exfalso. rewrite Etw in Hcrit.
        apply (Qlt_irrefl 0 Hcrit).
    + assert (Hd : ~ den == 0).
      { intros Hd. rewrite <- Htw' in Hd. apply Qeq_bool_iff in Hd. congruence. }
      assert (Hb : ws / tw == num / den) by (rewrite Hws', Htw'; reflexivity).
      specialize (Hbase Hd).
      split; [intros H0; contradiction|]. split.
      * intros Hc _. rewrite Hc. rewrite py_min_one; [exact Hb|].
        rewrite Hb. exact Hbase.
      * intros Hc. split; [exact Hd|]. rewrite Hc.
        rewrite py_min_one.
        -- rewrite py_max_Qmax, Hb. reflexivity.
        -- rewrite py_max_Qmax, Hb. apply Qminmax.Q.max_lub; [exact Hbase|].
           apply Qle_bool_true. reflexivity.
Qed.

(** Witness: a single compression check of score 0.9 and confidence 0.95
    lies in range. *)
Lemma calculate_fraud_score_weighted_average_witness :
  Forall in_range [mkFraudCheck "compression_fraud" false 0.9 0.95 []] /\
  (existsb spec_critical [mkFraudCheck "compression_fraud" false 0.9 0.95 []] = true ->
     ~ spec_total_weight [mkFraudCheck "compression_fraud" false 0.9 0.95 []] == 0 /\
     calculate_fraud_score [mkFraudCheck "compression_fraud" false 0.9 0.95 []] ==
       Qmax (spec_weighted_sum [mkFraudCheck "compression_fraud" false 0.9 0.95 []] /
             spec_total_weight [mkFraudCheck "compression_fraud" false 0.9 0.95 []]) 0.6).
Proof.
  assert (Hr : Forall in_range [mkFraudCheck "compression_fraud" false 0.9 0.95 []]).
  { constructor; [|constructor].
    split; split; apply Qle_bool_true; reflexivity. }
  split; [exact Hr|].
  exact (proj2 (proj2 (calculate_fraud_score_weighted_average _ Hr))).
Defined.

(** C10: [classify_fraud_level] returns one of the four level strings for
    every score; every negative score gives "clean" and every score at or
    above 0.80 (1.0 and above included) gives "confirmed_fraud". *)
Theorem classify_fraud_level_total (q : Q) :
  In (classify_fraud_level q) ["clean"; "suspect"; "likely_fraud"; "confirmed_fraud"] /\
  (q < 0 -> classify_fraud_level q = "clean") /\
  (0.80 <= q -> classify_fraud_level q = "confirmed_fraud").
Proof.
  unfold classify_fraud_level, classify_loop, FRAUD_LEVELS.
  split; [|split].
  - repeat match goal with
           | |- context [if ?b then _ else _] => destruct b
           end; cbn; tauto.
  - intros Hq.
    assert (Hf : forall b, q < b -> Qle_bool b q = false).
    { intros b Hb. apply not_true_iff_false. intros H. apply Qle_bool_true in H. lra. }
    rewrite !Hf by lra. reflexivity.
  - intros Hq.
    assert (Ht : forall b, b <= q -> Qle_bool b q = true).
    { intros b Hb. apply Qle_bool_true. exact Hb. }
    rewrite (Ht 0.0), (Ht 0.20), (Ht 0.50), (Ht 0.80) by lra. cbn [andb negb].
    destruct (Qle_bool 1.0 q); reflexivity.
Qed.

Close Scope Q_scope.
End DetectClaims.

(* ------------------------------------------------------------------ *)
Module MerkleMoreFacts.
Import Merkle MerkleFacts.
Section MerkleMoreFacts.
Variable H : string -> string.

(** The last level [merkle_proof] reaches is the one-element level holding
    the root that [root_loop] computes. *)
Lemma proof_loop_last (fr : nat) : forall (fp : nat) (w : list string) (c : nat),
  1 <= length w -> length w <= fr -> length (pad_odd_gt1 w) <= fp ->
  snd (proof_loop H fp (pad_odd_gt1 w) c) = [root_loop H fr w].
Proof.
  induction fr as [|fr IH]; intros fp w c H1 Hfr Hfp; [lia|].
  destruct (le_lt_dec (length w) 1) as [Hs|Hb].
  - rewrite pad_odd_gt1_small in * by exact Hs.
    destruct fp as [|fp]; [lia|].
    cbn [proof_loop root_loop].
    replace (1 <? length w) with false by (symmetry; apply Nat.ltb_ge; lia).
    destruct w as [|x [|y r]]; simpl in *; try lia. reflexivity.
  - rewrite pad_odd_gt1_eq in * by exact Hb.
    pose proof (pad_odd_length_ge w) as Hge.
    pose proof (pad_odd_length_le w) as Hle.
    pose proof (pad_odd_even w) as Hev.
    set (v := pad_odd w) in *.
    destruct fp as [|fp]; [lia|].
    cbn [proof_loop root_loop].
    replace (1 <? length v) with true by (symmetry; apply Nat.ltb_lt; lia).
    replace (1 <? length w) with true by (symmetry; apply Nat.ltb_lt; lia).
    fold v.
    pose proof (even_half (length v) Hev) as Hhalf.
    pose proof (pair_level_length H v) as Hpl.
    destruct (proof_loop H fp (pad_odd_gt1 (pair_level H v)) (c / 2))
      as [[p d] wl] eqn:Er.
    cbn [snd]. rewrite <- (IH fp (pair_level H v) (c / 2)); [rewrite Er; reflexivity|lia|lia|].
    destruct (pad_odd_gt1_length (pair_level H v)) as [Hp1 Hp2].
    destruct (le_lt_dec (length (pair_level H v)) 1) as [Hk|Hk].
    + rewrite (Hp2 Hk). lia.
    + lia.
Qed.

(** [root_loop] does not depend on its fuel once the fuel covers the
    length of the level. *)
Lemma root_loop_fuel (f1 : nat) : forall (f2 : nat) (w : list string),
  length w <= f1 -> length w <= f2 -> root_loop H f1 w = root_loop H f2 w.
Proof.
  induction f1 as [|f1 IH]; intros f2 w H1 H2.
  - destruct w; [|simpl in H1; lia]. destruct f2; reflexivity.
  - destruct f2 as [|f2].
    + destruct w; [reflexivity|simpl in H2; lia].
    + cbn [root_loop]. destruct (1 <? length w) eqn:E; [|reflexivity].
      apply Nat.ltb_lt in E.
      assert (Hp : length (pad_odd w) <= 2 * f1 /\ length (pad_odd w) <= 2 * f2).
      { rewrite pad_odd_length. destruct (Nat.odd (length w)) eqn:Eo; [|lia].
        destruct (length w) as [|[|[|k]]]; try discriminate; lia. }
      apply IH.
      * rewrite pair_level_length. apply Nat.Div0.div_le_upper_bound; lia.
      * rewrite pair_level_length. apply Nat.Div0.div_le_upper_bound; lia.
Qed.

Lemma root_loop_step (f : nat) (w : list string) :
  1 < length w -> root_loop H (S f) w = root_loop H f (pair_level H (pad_odd w)).
Proof. intros Hw. cbn [root_loop]. rewrite (proj2 (Nat.ltb_lt _ _) Hw). reflexivity. Qed.

Lemma merkle_root_ge2 (hashes : list string) :
  2 <= length hashes -> merkle_root H hashes = root_loop H (length hashes) hashes.
Proof. intros H2. destruct hashes as [|a [|b r]]; simpl in H2; try lia. reflexivity. Qed.

End MerkleMoreFacts.
End MerkleMoreFacts.

Module MerkleExtras.
Import Merkle MerkleFacts MerkleMoreFacts.

(** On a list of at least two hashes and a valid index, [merkle_proof]
    returns a valid proof whose [leaf_hash] is the hash at that index, whose
    [root] is [merkle_root] of the list, and whose [path] and [directions]
    have the same length. *)
Theorem merkle_proof_fields (dual_hash : string -> string) (hashes : list string) (index : nat) :
  2 <= length hashes -> index < length hashes ->
  exists path dirs,
    merkle_proof dual_hash hashes index =
      PyDict [("valid", PyBool true); ("leaf_hash", PyStr (nth index hashes ""));
              ("path", PyList (map PyStr path)); ("directions", PyList (map PyStr dirs));
              ("root", PyStr (merkle_root dual_hash hashes))] /\
    length path = length dirs.
Proof.
  intros H2 Hi. unfold merkle_proof.
  replace (Nat.eqb (length hashes) 0) with false by (symmetry; apply Nat.eqb_neq; lia).
  replace (length hashes <=? index) with false by (symmetry; apply Nat.leb_gt; lia).
  cbn [orb].
  pose proof (proof_loop_sound dual_hash (length hashes) (length (pad_odd hashes)) hashes index
                Hi (le_n _)) as Hs.
  pose proof (proof_loop_last dual_hash (length hashes) (length (pad_odd hashes)) hashes index
                ltac:(lia) (le_n _)) as Hl.
  rewrite pad_odd_gt1_eq in Hs, Hl by lia.
  specialize (Hs (le_n _)). specialize (Hl (le_n _)).
  destruct (proof_loop dual_hash (length (pad_odd hashes)) (pad_odd hashes) index)
    as [[p d] wl] eqn:Er.
  cbn [fst snd] in Hs, Hl. destruct Hs as [Hlen _]. subst wl.
  exists p, d. rewrite merkle_root_ge2 by exact H2. split; [reflexivity|exact Hlen].
Qed.

Lemma merkle_proof_fields_witness :
  2 <= length ["a"; "b"; "c"] /\ 1 < length ["a"; "b"; "c"] /\
  exists path dirs,
    merkle_proof toy_hash ["a"; "b"; "c"] 1 =
      PyDict [("valid", PyBool true); ("leaf_hash", PyStr (nth 1 ["a"; "b"; "c"] ""));
              ("path", PyList (map PyStr path)); ("directions", PyList (map PyStr dirs));
              ("root", PyStr (merkle_root toy_hash ["a"; "b"; "c"]))] /\
    length path = length dirs.
Proof.
  split; [cbn; lia|]. split; [cbn; lia|].
  apply merkle_proof_fields; cbn; lia.
Defined.

(** Duplicating the last hash of a list of odd length (at least three)
    does not change its Merkle root: [merkle_root] pads odd levels with a
    copy of their last hash, so [L] and [L + [L[-1]]] share a root. *)
Theorem merkle_root_duplicate_last (dual_hash : string -> string) (hashes : list string) :
  Nat.odd (length hashes) = true -> 3 <= length hashes ->
  merkle_root dual_hash (hashes ++ [List.last hashes ""]) = merkle_root dual_hash hashes.
Proof.
  intros Hodd H3.
  rewrite !merkle_root_ge2 by (try rewrite length_app; cbn [length]; lia).
  rewrite length_app. cbn [length].
  replace (length hashes + 1) with (S (length hashes)) by lia.
  destruct (length hashes) as [|n] eqn:En; [lia|].
  rewrite (root_loop_step _ n hashes) by lia.
  rewrite root_loop_step by (rewrite length_app, En; cbn [length]; lia).
  assert (Hp : pad_odd hashes = hashes ++ [List.last hashes ""])
    by (unfold pad_odd; rewrite En, Hodd; reflexivity).
  assert (Hq : pad_odd (hashes ++ [List.last hashes ""]) = hashes ++ [List.last hashes ""]).
  { unfold pad_odd. rewrite length_app, En. cbn [length].
    replace (S n + 1) with (S (S n)) by lia. rewrite Nat.odd_succ, <- Nat.negb_odd, Hodd.
    reflexivity. }
  rewrite Hq, Hp.
  apply root_loop_fuel;
    rewrite pair_level_length, length_app, En; cbn [length];
    apply Nat.Div0.div_le_upper_bound; lia.
Qed.

Lemma merkle_root_duplicate_last_witness :
  Nat.odd (length ["a"; "b"; "c"]) = true /\ 3 <= length ["a"; "b"; "c"] /\
  merkle_root toy_hash (["a"; "b"; "c"] ++ [List.last ["a"; "b"; "c"] ""]) =
    merkle_root toy_hash ["a"; "b"; "c"].
Proof.
  split; [reflexivity|]. split; [cbn; lia|].
  apply merkle_root_duplicate_last; [reflexivity|cbn; lia].
Defined.

End MerkleExtras.

(* ------------------------------------------------------------------ *)
Module RegistryMoreFacts.
Import DictFacts LedgerFacts Receipt DoubleCount RegistryFacts.

(** [validate_receipt] accepts a record of a known type that has every
    required field of its schema. *)
Lemma validate_receipt_known (receipt : dict) (s : string) (sc : schema) :
  dict_get receipt "receipt_type" = Some (PyStr s) ->
  schema_lookup s RECEIPT_SCHEMAS = Some sc ->
  forallb (dict_mem receipt) (required_fields sc) = true ->
  validate_receipt receipt = inr (true, []).
Proof.
  intros E Hs Hall. unfold validate_receipt. rewrite E. cbn [default truthy id].
  rewrite negb_involutive.
  destruct (String.eqb_spec s "") as [->|_].
  - cbn in Hs. discriminate.
  - lazy beta iota. rewrite Hs.
    assert (Hf : filter (fun f => negb (dict_mem receipt f)) (required_fields sc) = []).
    { induction (required_fields sc) as [|f fs IH]; [reflexivity|].
      cbn in Hall |- *. apply andb_prop in Hall as [H1 H2]. rewrite H1. cbn. exact (IH H2). }
    rewrite Hf. reflexivity.
Qed.

(** A record written by [emit_receipt] passes [validate_receipt] when its
    type is known and each required field is [ts], [tenant_id] (which
    [emit_receipt] fills in) or already present. *)
Lemma emit_output_validates (dual_hash : string -> string)
    (json_dumps : bool -> pyval -> string) (utc_clock : nat -> datetime)
    (receipt : dict) (w w' : world) (out : dict) (s : string) (sc : schema) :
  Core.emit_receipt dual_hash json_dumps utc_clock receipt w = (w', inr out) ->
  dict_get receipt "receipt_type" = Some (PyStr s) ->
  schema_lookup s RECEIPT_SCHEMAS = Some sc ->
  forallb (fun f => String.eqb f "ts" || String.eqb f "tenant_id" || dict_mem receipt f)
          (required_fields sc) = true ->
  validate_receipt out = inr (true, []).
Proof.
  intros He Ht Hs Hall.
  destruct (emit_receipt_shape dual_hash json_dumps utc_clock receipt w)
    as (o & E & Hts & Htn & Hph & Hoth).
  rewrite E in He. injection He as _ <-.
  apply (validate_receipt_known o s sc); [rewrite Hoth by discriminate; exact Ht|exact Hs|].
  apply forallb_forall. intros f Hf.
  pose proof (proj1 (forallb_forall _ _) Hall f Hf) as Hm.
  unfold dict_mem. revert Hm.
  destruct (String.eqb_spec f "ts") as [->|Hn1]; [intros _; rewrite Hts; reflexivity|].
  destruct (String.eqb_spec f "tenant_id") as [->|Hn2]; [intros _; rewrite Htn; reflexivity|].
  intros Hm.
  assert (Hm' : dict_mem receipt f = true)
    by (rewrite (proj2 (String.eqb_neq f "ts") Hn1) in Hm; exact Hm).
  destruct (dict_mem_some _ _ Hm') as [v Hv].
  destruct (String.eqb_spec f "payload_hash") as [->|Hn3].
  - rewrite Hph, Hv. reflexivity.
  - rewrite Hoth by assumption. rewrite Hv. reflexivity.
Qed.

(** One call of [register_credit], in full: the registry entry and the
    Merkle list it updates, the double_count receipt (which validates), the
    returned result when the history is uniform and the anomaly and
    [StopRule] otherwise. *)
Lemma register_credit_run (dual_hash : string -> string)
    (json_dumps : bool -> pyval -> string) (utc_clock : nat -> datetime)
    (credit_id registry owner_hash tenant_id : string) (w : world) :
  let existing := default [] (credit_registry w !! credit_id) in
  let credit_hash := dual_hash (json_dumps true
        (PyDict [("credit_id", PyStr credit_id); ("registry", PyStr registry);
                 ("owner_hash", PyStr owner_hash)])) in
  let u := scan_unique registry owner_hash existing in
  let occs := existing ++ [mkOccurrence registry owner_hash credit_hash "active"] in
  let hashes := merkle_hashes w ++ [credit_hash] in
  let call := register_credit dual_hash json_dumps utc_clock
                credit_id registry owner_hash tenant_id w in
  credit_registry (fst call) = <[credit_id := occs]> (credit_registry w) /\
  merkle_hashes (fst call) = hashes /\
  exists dc,
    validate_receipt dc = inr (true, []) /\
    dict_get dc "receipt_type" = Some (PyStr "double_count") /\
    (u = true ->
       receipts_file (fst call) = receipts_file w ++ [dc] /\
       exists res, snd call = inr res /\
         dict_get res "is_unique" = Some (PyBool true) /\
         dict_get res "merkle_position" = Some (PyStr (nat_str (length (merkle_hashes w)))) /\
         dict_get res "cross_registry_root" = Some (PyStr (Merkle.merkle_root dual_hash hashes)) /\
         dict_get res "occurrences" = Some (PyList (map occurrence_dict occs))) /\
    (u = false -> exists an msg,
       snd call = inl (StopRule msg "critical") /\
       receipts_file (fst call) = receipts_file w ++ [dc; an] /\
       validate_receipt an = inr (true, []) /\
       dict_get an "receipt_type" = Some (PyStr "anomaly") /\
       dict_get an "classification" = Some (PyStr "critical") /\
       dict_get an "action" = Some (PyStr "halt")).
Proof.
  intros existing credit_hash u occs hashes call.
  assert (Hu : scan_unique registry owner_hash existing = u) by reflexivity.
  clearbody u.
  unfold call, register_credit, bindM, get_world, set_registry_entry, push_merkle_hash, retM.
  cbn [fst snd credit_registry merkle_hashes receipts_file clock_reads chain_leaves chain_anchors].
  fold existing. fold credit_hash. rewrite Hu.
  replace (length (merkle_hashes w ++ [credit_hash]) - 1) with (length (merkle_hashes w))
    by (rewrite length_app; cbn [length]; lia).
  unfold DoubleCount.emit_receipt.
  match goal with
  | |- context [Core.emit_receipt dual_hash json_dumps utc_clock ?r ?w1] =>
      destruct (emit_receipt_shape dual_hash json_dumps utc_clock r w1)
        as (dc & Hdc & _ & _ & _ & Hoth);
      pose proof Hdc as Hdc'; rewrite Hdc
  end.
  assert (Hv : validate_receipt dc = inr (true, [])).
  { eapply emit_output_validates; [exact Hdc'|reflexivity|reflexivity|reflexivity]. }
  assert (Hdt : dict_get dc "receipt_type" = Some (PyStr "double_count"))
    by (rewrite Hoth by discriminate; reflexivity).
  destruct u.
  - cbn [negb]. cbn beta iota zeta.
    split; [reflexivity|]. split; [reflexivity|].
    exists dc. split; [exact Hv|]. split; [exact Hdt|]. split.
    + intros _. split; [reflexivity|]. eexists. split; [reflexivity|].
      split; [reflexivity|]. split; [reflexivity|]. split; reflexivity.
    + discriminate.
  - cbn beta iota. unfold stoprule_double_count, bindM, raiseM, emit_anomaly_receipt,
      Core.emit_anomaly_receipt.
    cbn [negb].
    match goal with
    | |- context [Core.emit_receipt dual_hash json_dumps utc_clock ?r ?w1] =>
        destruct (emit_receipt_shape dual_hash json_dumps utc_clock r w1)
          as (an & Han & _ & _ & _ & Hoa);
        pose proof Han as Han'; rewrite Han
    end.
    assert (Hva : validate_receipt an = inr (true, [])).
    { eapply emit_output_validates; [exact Han'|reflexivity|reflexivity|reflexivity]. }
    cbn beta iota.
    split; [reflexivity|]. split; [reflexivity|].
    exists dc. split; [exact Hv|]. split; [exact Hdt|]. split.
    + discriminate.
    + intros _. eexists an, _. split; [reflexivity|].
      split; [cbn [receipts_file]; rewrite <- app_assoc; reflexivity|].
      split; [exact Hva|].
      split; [|split]; rewrite Hoa by discriminate; reflexivity.
Qed.

(** [len(set(xs)) <= 1] exactly when all elements of [xs] are equal. *)
Lemma set_size_le1 (xs : list string) :
  (1 <? set_size xs) = false <-> forall a b, In a xs -> In b xs -> a = b.
Proof.
  unfold set_size. rewrite Nat.ltb_ge. split.
  - intros Hl a b Ha Hb.
    apply (proj2 (nodup_In string_dec xs a)) in Ha.
    apply (proj2 (nodup_In string_dec xs b)) in Hb.
    revert Hl Ha Hb. destruct (nodup string_dec xs) as [|x [|y t]]; cbn [In length].
    + intros _ [].
    + intros _ [<-|[]] [<-|[]]. reflexivity.
    + intros Hl. lia.
  - intros Hall. pose proof (NoDup_nodup string_dec xs) as Hnd.
    assert (Hin : forall a, In a (nodup string_dec xs) -> In a xs)
      by (intros a; apply (nodup_In string_dec)).
    revert Hnd Hin. destruct (nodup string_dec xs) as [|x [|y t]]; cbn [length]; try lia.
    intros Hnd Hin. exfalso.
    assert (x = y) as <- by (apply Hall; apply Hin; cbn; auto).
    inversion Hnd as [|? ? Hx _]. apply Hx. left. reflexivity.
Qed.

Lemma two_distinct_length {A : Type} (l : list A) (a b : A) :
  In a l -> In b l -> a <> b -> 1 < length l.
Proof.
  destruct l as [|x [|y t]]; cbn [In length].
  - intros [].
  - intros [<-|[]] [<-|[]] H. contradiction.
  - lia.
Qed.

Lemma scan_unique_Forall (registry owner_hash : string) (existing : list occurrence) :
  scan_unique registry owner_hash existing = true <->
  Forall (fun o => occ_registry o = registry /\ occ_owner_hash o = owner_hash) existing.
Proof.
  induction existing as [|o rest IH]; cbn [scan_unique].
  - split; [constructor|reflexivity].
  - destruct (String.eqb_spec (occ_registry o) registry);
      destruct (String.eqb_spec (occ_owner_hash o) owner_hash); cbn [negb orb].
    + rewrite IH. split; [intros; constructor; auto|intros Hf; inversion Hf; auto].
    + split; [discriminate|intros Hf; inversion Hf as [|? ? [_ ?] _]; contradiction].
    + split; [discriminate|intros Hf; inversion Hf as [|? ? [? _] _]; contradiction].
    + split; [discriminate|intros Hf; inversion Hf as [|? ? [? _] _]; contradiction].
Qed.

(** One call of [check_double_count]: with a uniform filtered history it
    returns without touching the state; with two filtered records that
    differ in registry or owner it appends a critical anomaly and raises. *)
Lemma check_double_count_run (dual_hash : string -> string)
    (json_dumps : bool -> pyval -> string) (utc_clock : nat -> datetime)
    (credit_id : string) (registries : option (list string)) (tenant_id : string)
    (w : world) :
  let regs := match registries with None => SUPPORTED_REGISTRIES | Some r => r end in
  let filtered := filter (fun o => existsb (String.eqb (occ_registry o)) regs)
                    (default [] (credit_registry w !! credit_id)) in
  let call := DoubleCountQuery.check_double_count dual_hash json_dumps utc_clock
                credit_id registries tenant_id w in
  ((forall o1 o2, In o1 filtered -> In o2 filtered ->
      occ_registry o1 = occ_registry o2 /\ occ_owner_hash o1 = occ_owner_hash o2) ->
   fst call = w /\
   exists res, snd call = inr res /\
     dict_get res "is_double_counted" = Some (PyBool false) /\
     dict_get res "occurrence_count" = Some (PyInt (Z.of_nat (length filtered)))) /\
  ((exists o1 o2, In o1 filtered /\ In o2 filtered /\
      (occ_registry o1 <> occ_registry o2 \/ occ_owner_hash o1 <> occ_owner_hash o2)) ->
   exists an msg,
     snd call = inl (StopRule msg "critical") /\
     receipts_file (fst call) = receipts_file w ++ [an] /\
     credit_registry (fst call) = credit_registry w /\
     merkle_hashes (fst call) = merkle_hashes w /\
     validate_receipt an = inr (true, []) /\
     dict_get an "receipt_type" = Some (PyStr "anomaly") /\
     dict_get an "classification" = Some (PyStr "critical") /\
     dict_get an "action" = Some (PyStr "halt")).
Proof.
  intros regs filtered call.
  unfold call, DoubleCountQuery.check_double_count, bindM, get_world, retM.
  cbn beta zeta iota. fold regs. fold filtered.
  split; intros Hc.
  - assert (Ho : (1 <? set_size (map occ_owner_hash filtered)) = false).
    { apply set_size_le1. intros a b Ha Hb.
      apply in_map_iff in Ha as (o1 & <- & H1). apply in_map_iff in Hb as (o2 & <- & H2).
      apply (Hc o1 o2 H1 H2). }
    assert (Hr : (1 <? set_size (map occ_registry filtered)) = false).
    { apply set_size_le1. intros a b Ha Hb.
      apply in_map_iff in Ha as (o1 & <- & H1). apply in_map_iff in Hb as (o2 & <- & H2).
      apply (Hc o1 o2 H1 H2). }
    rewrite Ho, Hr. cbn [orb]. rewrite andb_false_r. cbn beta iota.
    split; [reflexivity|]. eexists. split; [reflexivity|]. split; reflexivity.
  - destruct Hc as (o1 & o2 & H1 & H2 & Hd).
    assert (Hne : o1 <> o2) by (intros ->; destruct Hd as [Hd|Hd]; apply Hd; reflexivity).
    assert (Hl : (1 <? length filtered) = true)
      by (apply Nat.ltb_lt; exact (two_distinct_length _ _ _ H1 H2 Hne)).
    assert (Hs : (1 <? set_size (map occ_owner_hash filtered)) ||
                 (1 <? set_size (map occ_registry filtered)) = true).
    { destruct Hd as [Hd|Hd]; apply orb_true_intro.
      - right. destruct (1 <? set_size (map occ_registry filtered)) eqn:E; [reflexivity|].
        exfalso. apply Hd. apply (proj1 (set_size_le1 _) E); apply in_map; assumption.
      - left. destruct (1 <? set_size (map occ_owner_hash filtered)) eqn:E; [reflexivity|].
        exfalso. apply Hd. apply (proj1 (set_size_le1 _) E); apply in_map; assumption. }
    rewrite Hl, Hs. cbn [andb].
    unfold stoprule_double_count, bindM, raiseM, DoubleCount.emit_anomaly_receipt,
      Core.emit_anomaly_receipt.
    match goal with
    | |- context [Core.emit_receipt dual_hash json_dumps utc_clock ?r ?w1] =>
        destruct (emit_receipt_shape dual_hash json_dumps utc_clock r w1)
          as (an & Han & _ & _ & _ & Hoa);
        pose proof Han as Han'; rewrite Han
    end.
    assert (Hva : validate_receipt an = inr (true, [])).
    { eapply emit_output_validates; [exact Han'|reflexivity|reflexivity|reflexivity]. }
    cbn beta iota.
    eexists an, _. split; [reflexivity|]. split; [reflexivity|].
    split; [reflexivity|]. split; [reflexivity|]. split; [exact Hva|].
    split; [|split]; rewrite Hoa by discriminate; reflexivity.
Qed.

(** After [register_credit] returns, the whole history of the credit has
    the registry and owner of the call, and is one record longer. *)
Lemma register_credit_returned_history (dual_hash : string -> string)
    (json_dumps : bool -> pyval -> string) (utc_clock : nat -> datetime)
    (credit_id registry owner_hash tenant_id : string) (w w' : world) (res : dict) :
  register_credit dual_hash json_dumps utc_clock credit_id registry owner_hash tenant_id w
    = (w', inr res) ->
  Forall (fun o => occ_registry o = registry /\ occ_owner_hash o = owner_hash)
         (default [] (credit_registry w' !! credit_id)) /\
  length (default [] (credit_registry w' !! credit_id)) =
    S (length (default [] (credit_registry w !! credit_id))).
Proof.
  intros Hc.
  destruct (register_credit_run dual_hash json_dumps utc_clock
              credit_id registry owner_hash tenant_id w)
    as (Hreg & _ & dc & _ & _ & Ht & Hf).
  rewrite Hc in Hreg, Ht, Hf. cbn [fst snd] in Hreg, Ht, Hf.
  rewrite Hreg, lookup_insert_eq. cbn [default].
  destruct (scan_unique registry owner_hash (default [] (credit_registry w !! credit_id)))
    eqn:Eu.
  - split.
    + apply Forall_app. split; [apply scan_unique_Forall; exact Eu|].
      constructor; [split; reflexivity|constructor].
    + unfold id. rewrite length_app. cbn [length]. lia.
  - destruct (Hf eq_refl) as (an & msg & He & _). discriminate He.
Qed.

Lemma nth_map_in_range {A B : Type} (f : A -> B) (l : list A) (i : nat) (d' : B) (d : A) :
  i < length l -> nth i (map f l) d' = f (nth i l d).
Proof.
  revert i. induction l as [|x l IH]; intros [|i]; cbn [length map nth]; try lia.
  - reflexivity.
  - intros Hi. apply IH. lia.
Qed.

(** One call of [merkle_cross_registry]: one anchor receipt appended (it
    validates), and the returned root and proofs. *)
Lemma merkle_cross_registry_run (dual_hash : string -> string)
    (json_dumps : bool -> pyval -> string) (utc_clock : nat -> datetime)
    (credits : list dict) (tenant_id : string) (w : world) :
  let hashes := map (fun c => dual_hash (json_dumps true (PyDict c))) credits in
  let root := Merkle.merkle_root dual_hash hashes in
  let call := DoubleCountQuery.merkle_cross_registry dual_hash json_dumps utc_clock
                credits tenant_id w in
  exists rc,
    receipts_file (fst call) = receipts_file w ++ [rc] /\
    credit_registry (fst call) = credit_registry w /\
    merkle_hashes (fst call) = merkle_hashes w /\
    validate_receipt rc = inr (true, []) /\
    dict_get rc "anchor_type" = Some (PyStr "cross_registry") /\
    dict_get rc "merkle_root" = Some (PyStr root) /\
    snd call = inr [("credit_count", PyInt (Z.of_nat (length credits)));
                    ("cross_registry_root", PyStr root);
                    ("proofs", PyList (imap (DoubleCountQuery.credit_proof dual_hash hashes)
                                            credits))].
Proof.
  intros hashes root call.
  unfold call, DoubleCountQuery.merkle_cross_registry, bindM, retM.
  fold hashes. fold root.
  match goal with
  | |- context [Core.emit_receipt dual_hash json_dumps utc_clock ?r ?w1] =>
      destruct (emit_receipt_shape dual_hash json_dumps utc_clock r w1)
        as (rc & Hrc & _ & _ & _ & Hor);
      pose proof Hrc as Hrc'; rewrite Hrc
  end.
  assert (Hv : validate_receipt rc = inr (true, [])).
  { eapply emit_output_validates; [exact Hrc'|reflexivity|reflexivity|reflexivity]. }
  cbn beta iota. exists rc.
  split; [reflexivity|]. split; [reflexivity|]. split; [reflexivity|].
  split; [exact Hv|].
  split; [|split]; [rewrite Hor by discriminate; reflexivity..|reflexivity].
Qed.

End RegistryMoreFacts.

Module RegistryExtras.
Import DictFacts LedgerFacts Receipt DoubleCount RegistryFacts RegistryMoreFacts.

(** After [register_credit] returns, every record in the credit's history
    has the registry and owner of the call, and the history is one record
    longer than before. *)
Theorem register_credit_returned_uniform (dual_hash : string -> string)
    (json_dumps : bool -> pyval -> string) (utc_clock : nat -> datetime)
    (credit_id registry owner_hash tenant_id : string) (w w' : world) (res : dict) :
  register_credit dual_hash json_dumps utc_clock credit_id registry owner_hash tenant_id w
    = (w', inr res) ->
  Forall (fun o => occ_registry o = registry /\ occ_owner_hash o = owner_hash)
         (default [] (credit_registry w' !! credit_id)) /\
  length (default [] (credit_registry w' !! credit_id)) =
    S (length (default [] (credit_registry w !! credit_id))).
Proof.
  apply register_credit_returned_history.
Qed.

Lemma register_credit_returned_uniform_witness :
  exists w' res,
    register_credit toy_hash toy_dumps toy_clock "c" "verra" "o" "t" empty_world
      = (w', inr res) /\
    Forall (fun o => occ_registry o = "verra" /\ occ_owner_hash o = "o")
           (default [] (credit_registry w' !! "c")) /\
    length (default [] (credit_registry w' !! "c")) =
      S (length (default [] (credit_registry empty_world !! "c"))).
Proof.
  exists (fst (register_credit toy_hash toy_dumps toy_clock "c" "verra" "o" "t" empty_world)),
    (match snd (register_credit toy_hash toy_dumps toy_clock "c" "verra" "o" "t" empty_world) with inr r => r | inl _ => [] end).
  split; [vm_compute; reflexivity|].
  eapply (register_credit_returned_uniform toy_hash toy_dumps toy_clock
           "c" "verra" "o" "t" empty_world). vm_compute; reflexivity.
Defined.

(** Once the history of a credit holds two records that differ in
    registry or owner, every later [register_credit] of that credit raises
    a critical [StopRule], whatever registry and owner it is called with. *)
Theorem register_credit_poisoned_history_halts (dual_hash : string -> string)
    (json_dumps : bool -> pyval -> string) (utc_clock : nat -> datetime)
    (credit_id registry owner_hash tenant_id : string) (w : world) (o1 o2 : occurrence) :
  In o1 (default [] (credit_registry w !! credit_id)) ->
  In o2 (default [] (credit_registry w !! credit_id)) ->
  occ_registry o1 <> occ_registry o2 \/ occ_owner_hash o1 <> occ_owner_hash o2 ->
  exists msg,
    snd (register_credit dual_hash json_dumps utc_clock
           credit_id registry owner_hash tenant_id w) = inl (StopRule msg "critical").
Proof.
  intros H1 H2 Hd.
  destruct (register_credit_run dual_hash json_dumps utc_clock
              credit_id registry owner_hash tenant_id w)
    as (_ & _ & dc & _ & _ & _ & Hf).
  destruct (scan_unique registry owner_hash (default [] (credit_registry w !! credit_id)))
    eqn:Eu.
  - exfalso. apply scan_unique_Forall in Eu. rewrite List.Forall_forall in Eu.
    destruct (Eu o1 H1) as [Ha Hb]. destruct (Eu o2 H2) as [Hc He].
    destruct Hd as [Hd|Hd]; apply Hd; congruence.
  - destruct (Hf eq_refl) as (an & msg & He & _). exists msg. exact He.
Qed.

Lemma register_credit_poisoned_history_halts_witness :
  In (mkOccurrence "verra" "A" "h1" "active")
     (default [] (credit_registry
        {| receipts_file := []; clock_reads := 0;
           credit_registry := <["c" := [mkOccurrence "verra" "A" "h1" "active";
                                        mkOccurrence "gold_standard" "A" "h2" "active"]]> ∅;
           merkle_hashes := ["h1"; "h2"]; chain_leaves := []; chain_anchors := [] |} !! "c")) /\
  In (mkOccurrence "gold_standard" "A" "h2" "active")
     (default [] (credit_registry
        {| receipts_file := []; clock_reads := 0;
           credit_registry := <["c" := [mkOccurrence "verra" "A" "h1" "active";
                                        mkOccurrence "gold_standard" "A" "h2" "active"]]> ∅;
           merkle_hashes := ["h1"; "h2"]; chain_leaves := []; chain_anchors := [] |} !! "c")) /\
  (occ_registry (mkOccurrence "verra" "A" "h1" "active") <>
     occ_registry (mkOccurrence "gold_standard" "A" "h2" "active") \/
   occ_owner_hash (mkOccurrence "verra" "A" "h1" "active") <>
     occ_owner_hash (mkOccurrence "gold_standard" "A" "h2" "active")) /\
  exists msg,
    snd (register_credit toy_hash toy_dumps toy_clock "c" "verra" "A" "t"
        {| receipts_file := []; clock_reads := 0;
           credit_registry := <["c" := [mkOccurrence "verra" "A" "h1" "active";
                                        mkOccurrence "gold_standard" "A" "h2" "active"]]> ∅;
           merkle_hashes := ["h1"; "h2"]; chain_leaves := []; chain_anchors := [] |})
      = inl (StopRule msg "critical").
Proof.
  split; [vm_compute; left; reflexivity|].
  split; [vm_compute; right; left; reflexivity|].
  split; [left; cbn; discriminate|].
  apply (register_credit_poisoned_history_halts toy_hash toy_dumps toy_clock "c" "verra" "A" "t"
           _ (mkOccurrence "verra" "A" "h1" "active")
           (mkOccurrence "gold_standard" "A" "h2" "active")).
  - vm_compute; left; reflexivity.
  - vm_compute; right; left; reflexivity.
  - left; cbn; discriminate.
Defined.

(** [check_double_count] flags exactly by the filtered history: when all
    the records of the credit in the checked registries agree in registry
    and owner it returns [is_double_counted] false and leaves the state
    unchanged; when two of them differ it appends a critical anomaly (which
    validates) and raises [StopRule], leaving the registry and the Merkle
    list unchanged. *)
Theorem check_double_count_flags (dual_hash : string -> string)
    (json_dumps : bool -> pyval -> string) (utc_clock : nat -> datetime)
    (credit_id : string) (registries : option (list string)) (tenant_id : string)
    (w : world) :
  let regs := match registries with None => SUPPORTED_REGISTRIES | Some r => r end in
  let filtered := filter (fun o => existsb (String.eqb (occ_registry o)) regs)
                    (default [] (credit_registry w !! credit_id)) in
  let call := DoubleCountQuery.check_double_count dual_hash json_dumps utc_clock
                credit_id registries tenant_id w in
  ((forall o1 o2, In o1 filtered -> In o2 filtered ->
      occ_registry o1 = occ_registry o2 /\ occ_owner_hash o1 = occ_owner_hash o2) ->
   fst call = w /\
   exists res, snd call = inr res /\
     dict_get res "is_double_counted" = Some (PyBool false) /\
     dict_get res "occurrence_count" = Some (PyInt (Z.of_nat (length filtered)))) /\
  ((exists o1 o2, In o1 filtered /\ In o2 filtered /\
      (occ_registry o1 <> occ_registry o2 \/ occ_owner_hash o1 <> occ_owner_hash o2)) ->
   exists an msg,
     snd call = inl (StopRule msg "critical") /\
     receipts_file (fst call) = receipts_file w ++ [an] /\
     credit_registry (fst call) = credit_registry w /\
     merkle_hashes (fst call) = merkle_hashes w /\
     validate_receipt an = inr (true, []) /\
     dict_get an "receipt_type" = Some (PyStr "anomaly") /\
     dict_get an "classification" = Some (PyStr "critical") /\
     dict_get an "action" = Some (PyStr "halt")).
Proof.
  apply check_double_count_run.
Qed.

(** Right after a [register_credit] call returns, [check_double_count] of
    the same credit, over any registries, does not flag it and leaves the
    state unchanged. *)
Theorem register_then_check_not_flagged (dual_hash : string -> string)
    (json_dumps : bool -> pyval -> string) (utc_clock : nat -> datetime)
    (credit_id registry owner_hash tenant_id : string) (w w1 : world) (res : dict)
    (registries : option (list string)) (tenant_id' : string) :
  register_credit dual_hash json_dumps utc_clock credit_id registry owner_hash tenant_id w
    = (w1, inr res) ->
  fst (DoubleCountQuery.check_double_count dual_hash json_dumps utc_clock
         credit_id registries tenant_id' w1) = w1 /\
  exists r,
    snd (DoubleCountQuery.check_double_count dual_hash json_dumps utc_clock
           credit_id registries tenant_id' w1) = inr r /\
    dict_get r "is_double_counted" = Some (PyBool false).
Proof.
  intros Hc.
  destruct (register_credit_returned_history dual_hash json_dumps utc_clock
              credit_id registry owner_hash tenant_id w w1 res Hc) as [Hall _].
  rewrite List.Forall_forall in Hall.
  destruct (check_double_count_run dual_hash json_dumps utc_clock
              credit_id registries tenant_id' w1) as [Hu _].
  destruct Hu as (Hw & r & Hr & Hd & _).
  - intros o1 o2 H1 H2.
    apply list_elem_of_In, list_elem_of_filter in H1 as [_ H1].
    apply list_elem_of_In, list_elem_of_filter in H2 as [_ H2].
    apply list_elem_of_In in H1, H2.
    destruct (Hall o1 H1), (Hall o2 H2). split; congruence.
  - split; [exact Hw|]. exists r. split; assumption.
Qed.

Lemma register_then_check_not_flagged_witness :
  exists w1 res,
    register_credit toy_hash toy_dumps toy_clock "c" "verra" "o" "t" empty_world
      = (w1, inr res) /\
    fst (DoubleCountQuery.check_double_count toy_hash toy_dumps toy_clock "c" None "t" w1)
      = w1 /\
    exists r,
      snd (DoubleCountQuery.check_double_count toy_hash toy_dumps toy_clock "c" None "t" w1)
        = inr r /\
      dict_get r "is_double_counted" = Some (PyBool false).
Proof.
  exists (fst (register_credit toy_hash toy_dumps toy_clock "c" "verra" "o" "t" empty_world)),
    (match snd (register_credit toy_hash toy_dumps toy_clock "c" "verra" "o" "t" empty_world) with inr r => r | inl _ => [] end).
  split; [vm_compute; reflexivity|].
  eapply (register_then_check_not_flagged toy_hash toy_dumps toy_clock
           "c" "verra" "o" "t" empty_world). vm_compute; reflexivity.
Defined.

(** With at least two credits, [merkle_cross_registry] returns one proof
    per credit, at the credit's position, and each proof verifies the
    credit's hash against the returned [cross_registry_root]; the call
    appends one cross_registry anchor receipt carrying that root. *)
Theorem merkle_cross_registry_proofs_verify (dual_hash : string -> string)
    (json_dumps : bool -> pyval -> string) (utc_clock : nat -> datetime)
    (credits : list dict) (tenant_id : string) (w : world) :
  2 <= length credits ->
  let hashes := map (fun c => dual_hash (json_dumps true (PyDict c))) credits in
  let root := Merkle.merkle_root dual_hash hashes in
  let call := DoubleCountQuery.merkle_cross_registry dual_hash json_dumps utc_clock
                credits tenant_id w in
  (exists rc, receipts_file (fst call) = receipts_file w ++ [rc] /\
              dict_get rc "anchor_type" = Some (PyStr "cross_registry") /\
              dict_get rc "merkle_root" = Some (PyStr root)) /\
  exists res proofs,
    snd call = inr res /\
    dict_get res "cross_registry_root" = Some (PyStr root) /\
    dict_get res "proofs" = Some (PyList proofs) /\
    length proofs = length credits /\
    forall i credit, credits !! i = Some credit ->
      exists proof,
        proofs !! i = Some (PyDict [("credit_id", default PyNone (dict_get credit "credit_id"));
                                    ("position", PyInt (Z.of_nat i)); ("proof", proof)]) /\
        Merkle.verify_merkle_proof dual_hash (dual_hash (json_dumps true (PyDict credit)))
          proof root = inr true.
Proof.
  intros H2 hashes root call.
  destruct (merkle_cross_registry_run dual_hash json_dumps utc_clock credits tenant_id w)
    as (rc & Hf & _ & _ & _ & Ha & Hr & Hs).
  split; [exists rc; split; [exact Hf|split; assumption]|].
  eexists _, _. split; [exact Hs|].
  split; [reflexivity|]. split; [reflexivity|].
  split; [apply length_imap|].
  intros i credit Hi.
  exists (Merkle.merkle_proof dual_hash hashes i). split.
  - rewrite list_lookup_imap, Hi. reflexivity.
  - assert (Hl : i < length credits) by (eapply lookup_lt_Some; exact Hi).
    assert (Hn : nth i hashes "" = dual_hash (json_dumps true (PyDict credit))).
    { unfold hashes. rewrite (nth_map_in_range _ _ _ _ [] Hl).
      rewrite (nth_lookup_Some _ _ _ _ Hi). reflexivity. }
    rewrite <- Hn. unfold root.
    apply MerkleFacts.merkle_proof_verifies_ge2; unfold hashes; rewrite length_map; lia.
Qed.

Lemma merkle_cross_registry_proofs_verify_witness :
  2 <= length [[("credit_id", PyStr "a")]; [("credit_id", PyStr "b")]] /\
  (exists rc,
     receipts_file (fst (DoubleCountQuery.merkle_cross_registry toy_hash toy_dumps toy_clock
        [[("credit_id", PyStr "a")]; [("credit_id", PyStr "b")]] "t" empty_world)) =
       receipts_file empty_world ++ [rc] /\
     dict_get rc "anchor_type" = Some (PyStr "cross_registry") /\
     dict_get rc "merkle_root" = Some (PyStr (Merkle.merkle_root toy_hash
        (map (fun c => toy_hash (toy_dumps true (PyDict c)))
             [[("credit_id", PyStr "a")]; [("credit_id", PyStr "b")]])))) /\
  exists res proofs,
    snd (DoubleCountQuery.merkle_cross_registry toy_hash toy_dumps toy_clock
           [[("credit_id", PyStr "a")]; [("credit_id", PyStr "b")]] "t" empty_world)
      = inr res /\
    dict_get res "cross_registry_root" = Some (PyStr (Merkle.merkle_root toy_hash
        (map (fun c => toy_hash (toy_dumps true (PyDict c)))
             [[("credit_id", PyStr "a")]; [("credit_id", PyStr "b")]]))) /\
    dict_get res "proofs" = Some (PyList proofs) /\
    length proofs = length [[("credit_id", PyStr "a")]; [("credit_id", PyStr "b")]] /\
    forall i credit, [[("credit_id", PyStr "a")]; [("credit_id", PyStr "b")]] !! i = Some credit ->
      exists proof,
        proofs !! i = Some (PyDict [("credit_id", default PyNone (dict_get credit "credit_id"));
                                    ("position", PyInt (Z.of_nat i)); ("proof", proof)]) /\
        Merkle.verify_merkle_proof toy_hash (toy_hash (toy_dumps true (PyDict credit)))
          proof (Merkle.merkle_root toy_hash
                   (map (fun c => toy_hash (toy_dumps true (PyDict c)))
                        [[("credit_id", PyStr "a")]; [("credit_id", PyStr "b")]])) = inr true.
Proof.
  split; [cbn; lia|].
  apply (merkle_cross_registry_proofs_verify toy_hash toy_dumps toy_clock
           [[("credit_id", PyStr "a")]; [("credit_id", PyStr "b")]] "t" empty_world).
  cbn; lia.
Defined.

(** Every record that [register_credit], [check_double_count] and
    [merkle_cross_registry] append to the ledger passes
    [validate_receipt]; [register_credit] always appends at least one. *)
Theorem appended_receipts_validate (dual_hash : string -> string)
    (json_dumps : bool -> pyval -> string) (utc_clock : nat -> datetime) :
  (forall credit_id registry owner_hash tenant_id w,
     exists new,
       receipts_file (fst (register_credit dual_hash json_dumps utc_clock
                             credit_id registry owner_hash tenant_id w)) =
         receipts_file w ++ new /\
       new <> [] /\ Forall (fun r => validate_receipt r = inr (true, [])) new) /\
  (forall credit_id registries tenant_id w,
     exists new,
       receipts_file (fst (DoubleCountQuery.check_double_count dual_hash json_dumps utc_clock
                             credit_id registries tenant_id w)) =
         receipts_file w ++ new /\
       Forall (fun r => validate_receipt r = inr (true, [])) new) /\
  (forall credits tenant_id w,
     exists new,
       receipts_file (fst (DoubleCountQuery.merkle_cross_registry dual_hash json_dumps utc_clock
                             credits tenant_id w)) =
         receipts_file w ++ new /\
       new <> [] /\ Forall (fun r => validate_receipt r = inr (true, [])) new).
Proof.
  split; [|split].
  - intros credit_id registry owner_hash tenant_id w.
    destruct (register_credit_run dual_hash json_dumps utc_clock
                credit_id registry owner_hash tenant_id w)
      as (_ & _ & dc & Hv & _ & Ht & Hf).
    destruct (scan_unique registry owner_hash (default [] (credit_registry w !! credit_id))).
    + destruct (Ht eq_refl) as [Hr _]. exists [dc].
      split; [exact Hr|]. split; [discriminate|]. repeat constructor. exact Hv.
    + destruct (Hf eq_refl) as (an & msg & _ & Hr & Hva & _). exists [dc; an].
      split; [exact Hr|]. split; [discriminate|]. repeat constructor; assumption.
  - intros credit_id registries tenant_id w.
    unfold DoubleCountQuery.check_double_count, bindM, get_world, retM.
    match goal with
    | |- context [if ?b then stoprule_double_count _ _ _ _ _ _ else _] => destruct b
    end.
    + unfold stoprule_double_count, bindM, raiseM, DoubleCount.emit_anomaly_receipt,
        Core.emit_anomaly_receipt.
      match goal with
      | |- context [Core.emit_receipt dual_hash json_dumps utc_clock ?r ?w1] =>
          destruct (emit_receipt_shape dual_hash json_dumps utc_clock r w1)
            as (an & Han & _);
          pose proof Han as Han'; rewrite Han
      end.
      exists [an]. split; [reflexivity|]. repeat constructor.
      eapply emit_output_validates; [exact Han'|reflexivity|reflexivity|reflexivity].
    + exists []. split; [symmetry; apply app_nil_r|constructor].
  - intros credits tenant_id w.
    destruct (merkle_cross_registry_run dual_hash json_dumps utc_clock credits tenant_id w)
      as (rc & Hf & _ & _ & Hv & _).
    exists [rc]. split; [exact Hf|]. split; [discriminate|]. repeat constructor. exact Hv.
Qed.

End RegistryExtras.

(* ------------------------------------------------------------------ *)
Module DetectMoreFacts.
Import Detect DetectFacts DetectChecks.
Open Scope Q_scope.

Lemma Qle_bool_false (a b : Q) : Qle_bool a b = false <-> b < a.
Proof.
  split.
  - intros H. apply Qnot_le_lt. intros Hle. apply Qle_bool_true in Hle. congruence.
  - intros H. apply not_true_iff_false. intros Hle. apply Qle_bool_true in Hle. lra.
Qed.

Ltac decide_Qle :=
  repeat match goal with
         | |- context [Qle_bool ?a ?b] =>
             let E := fresh "E" in
             destruct (Qle_bool a b) eqn:E;
             [apply Qle_bool_true in E|apply Qle_bool_false in E]
         end.

(** The levels of [classify_fraud_level] by band of the score. *)
Lemma classify_bands (q : Q) :
  (q < 0.20 -> classify_fraud_level q = "clean") /\
  (0.20 <= q -> q < 0.50 -> classify_fraud_level q = "suspect") /\
  (0.50 <= q -> q < 0.80 -> classify_fraud_level q = "likely_fraud") /\
  (0.80 <= q -> classify_fraud_level q = "confirmed_fraud").
Proof.
  unfold classify_fraud_level, classify_loop, FRAUD_LEVELS.
  split; [|split; [|split]]; intros; decide_Qle; cbn [andb negb];
    solve [reflexivity | exfalso; lra].
Qed.

Lemma recommendation_bands (q : Q) :
  (q < 0.20 -> get_recommendation (classify_fraud_level q) = "approve") /\
  (0.20 <= q -> q < 0.50 -> get_recommendation (classify_fraud_level q) = "manual_review") /\
  (0.50 <= q -> get_recommendation (classify_fraud_level q) = "reject").
Proof.
  destruct (classify_bands q) as (H1 & H2 & H3 & H4).
  split; [|split].
  - intros Hq. rewrite (H1 Hq). reflexivity.
  - intros Ha Hb. rewrite (H2 Ha Hb). reflexivity.
  - intros Hq. destruct (Qlt_le_dec q 0.80) as [Hl|Hl].
    + rewrite (H3 Hq Hl). reflexivity.
    + rewrite (H4 Hl). reflexivity.
Qed.

Lemma py_min_le_l (a b : Q) : py_min a b <= a.
Proof.
  unfold py_min. destruct (Qle_bool a b) eqn:E; [apply Qle_refl|].
  apply Qle_bool_false in E. lra.
Qed.

Lemma py_min_le_r (a b : Q) : py_min a b <= b.
Proof.
  unfold py_min. destruct (Qle_bool a b) eqn:E; [apply Qle_bool_true in E; exact E|].
  apply Qle_refl.
Qed.

Lemma py_min_ge (a b c : Q) : c <= a -> c <= b -> c <= py_min a b.
Proof. unfold py_min. destruct (Qle_bool a b); auto. Qed.

Lemma py_min_Qmin (a b : Q) : py_min a b == Qmin a b.
Proof.
  unfold py_min. destruct (Qle_bool a b) eqn:E.
  - apply Qle_bool_true in E. symmetry. apply Qminmax.Q.min_l. exact E.
  - apply Qle_bool_false in E. symmetry. apply Qminmax.Q.min_r. lra.
Qed.

Lemma clamp_bounds (s lo hi : Q) :
  0 <= lo -> lo <= s -> s <= hi -> 0 <= clamp_score s /\ clamp_score s <= hi /\
  clamp_score s <= 1.
Proof.
  intros H0 Hl Hh. unfold clamp_score.
  pose proof (py_min_le_l 1.0 s). pose proof (py_min_le_r 1.0 s).
  split; [apply py_min_ge; lra|]. split; lra.
Qed.

Lemma fire_political_disjoint (v : pyval) :
  py_in_strs v ["BR"; "AU"; "US"; "ID"; "CA"; "RU"] = true ->
  py_in_strs v ["VE"; "MM"; "SD"; "SY"; "AF"] = false.
Proof.
  destruct v as [| | | |s| |]; try discriminate.
  unfold py_in_strs. cbn [existsb py_eq_str]. rewrite orb_false_r.
  intros H.
  repeat (apply orb_true_iff in H as [H|H]; [apply String.eqb_eq in H; subst; reflexivity|]).
  apply String.eqb_eq in H; subst; reflexivity.
Qed.

Ltac split_conds H :=
  repeat (match type of H with
          | context [if ?b then _ else _] => destruct b
          | context [match py_num ?v with _ => _ end] => destruct (py_num v)
          end; cbn beta iota zeta in H; try discriminate H).

(** What [check_additionality] returns: type, confidence 0.60, a score in
    [0, 1], and [passed] = score < 0.3. *)
Lemma additionality_shape (str_lower str_upper : string -> string) (claim : dict) (c : Check) :
  check_additionality str_lower str_upper claim = inr c ->
  ck_type c = "additionality" /\ ck_confidence c = 0.60 /\
  0 <= ck_score c <= 1 /\ ck_passed c = low_risk (ck_score c).
Proof.
  unfold check_additionality. intros H.
  destruct (str_method _ str_lower) as [e|pt]; [discriminate|].
  destruct (get_method _ _ _) as [e|country]; [discriminate|].
  destruct (str_method _ str_upper) as [e|meth]; [discriminate|].
  cbn [fold_left] in H. cbn beta iota zeta in H.
  split_conds H; injection H as <-; cbn [ck_type ck_confidence ck_score ck_passed];
    (split; [reflexivity|]); (split; [reflexivity|]); (split; [|reflexivity]);
    match goal with
    | |- 0 <= clamp_score ?s <= _ =>
        destruct (clamp_bounds s s s) as (Ha & _ & Hb); [lra|lra|lra|]; split; assumption
    end.
Qed.

(** What [check_permanence] returns: type, confidence 0.65, a score in
    [0, 0.5], and [passed] = score < 0.3. *)
Lemma permanence_shape (str_lower : string -> string) (claim : dict) (c : Check) :
  check_permanence str_lower claim = inr c ->
  ck_type c = "permanence" /\ ck_confidence c = 0.65 /\
  0 <= ck_score c <= 0.5 /\ ck_passed c = low_risk (ck_score c).
Proof.
  unfold check_permanence. intros H.
  destruct (str_method _ str_lower) as [e|pt]; [discriminate|].
  destruct (get_method _ _ _) as [e|country]; [discriminate|].
  cbn beta iota zeta in H.
  destruct (py_in_strs country ["BR"; "AU"; "US"; "ID"; "CA"; "RU"]) eqn:Ef.
  - rewrite (fire_political_disjoint _ Ef) in H.
    split_conds H; injection H as <-; cbn [ck_type ck_confidence ck_score ck_passed];
      (split; [reflexivity|]); (split; [reflexivity|]); (split; [|reflexivity]);
      match goal with
      | |- 0 <= clamp_score ?s <= _ =>
          destruct (clamp_bounds s s 0.5) as (Ha & Hb & _); [lra|lra|lra|]; split; assumption
      end.
  - split_conds H; injection H as <-; cbn [ck_type ck_confidence ck_score ck_passed];
      (split; [reflexivity|]); (split; [reflexivity|]); (split; [|reflexivity]);
      match goal with
      | |- 0 <= clamp_score ?s <= _ =>
          destruct (clamp_bounds s s 0.5) as (Ha & Hb & _); [lra|lra|lra|]; split; assumption
      end.
Qed.

(** What [check_leakage] returns: type, confidence 0.55, a score in
    [0, 0.35], and [passed] = score < 0.3. *)
Lemma leakage_shape (str_lower : string -> string) (claim : dict) (c : Check) :
  check_leakage str_lower claim = inr c ->
  ck_type c = "leakage" /\ ck_confidence c = 0.55 /\
  0 <= ck_score c <= 0.35 /\ ck_passed c = low_risk (ck_score c).
Proof.
  unfold check_leakage. intros H.
  destruct (str_method _ str_lower) as [e|pt]; [discriminate|].
  cbn beta iota zeta in H.
  split_conds H; injection H as <-; cbn [ck_type ck_confidence ck_score ck_passed];
    (split; [reflexivity|]); (split; [reflexivity|]); (split; [|reflexivity]);
    match goal with
    | |- 0 <= clamp_score ?s <= _ =>
        destruct (clamp_bounds s s 0.35) as (Ha & Hb & _); [lra|lra|lra|]; split; assumption
    end.
Qed.

Lemma total_weight_nonneg (checks : list FraudCheck) :
  Forall (fun c => 0 <= confidence c) checks -> 0 <= spec_total_weight checks.
Proof.
  induction 1 as [|c rest Hc _ IH]; [apply Qle_refl|].
  cbn [spec_total_weight fold_right]. fold (spec_total_weight rest).
  assert (0 <= fraud_weight (check_type c) * confidence c)
    by (apply Qmult_le_0_compat; [apply Qlt_le_weak, fraud_weight_pos|exact Hc]).
  lra.
Qed.

Lemma total_weight_pos (checks : list FraudCheck) :
  Forall (fun c => 0 <= confidence c) checks -> existsb spec_critical checks = true ->
  0 < spec_total_weight checks.
Proof.
  induction 1 as [|c rest Hc Hrest IH]; [discriminate|].
  cbn [existsb spec_total_weight fold_right]. fold (spec_total_weight rest).
  pose proof (total_weight_nonneg _ Hrest) as Hn.
  assert (Hw : 0 <= fraud_weight (check_type c) * confidence c)
    by (apply Qmult_le_0_compat; [apply Qlt_le_weak, fraud_weight_pos|exact Hc]).
  intros Hor. apply orb_true_iff in Hor as [Hcr|Hcr].
  - unfold spec_critical in Hcr. apply andb_true_iff in Hcr as [Hcr _].
    apply Qle_bool_true in Hcr.
    assert (0 < fraud_weight (check_type c) * confidence c)
      by (apply Qmult_lt_0_compat; [apply fraud_weight_pos|lra]).
    lra.
  - specialize (IH Hcr). lra.
Qed.

Lemma fraud_score_le_1 (checks : list FraudCheck) : calculate_fraud_score checks <= 1.
Proof.
  destruct checks as [|c0 rest]; [apply Qle_bool_true; reflexivity|].
  unfold calculate_fraud_score.
  destruct (fold_left score_step (c0 :: rest) (0.0, 0.0, 0.0)) as [[ws tw] mc].
  destruct (Qeq_bool tw 0); [apply Qle_bool_true; reflexivity|].
  destruct (Qle_bool 0.80 mc); pose proof (py_min_le_l 1.0 (py_max (ws / tw) 0.6));
    pose proof (py_min_le_l 1.0 (ws / tw)); lra.
Qed.

(** The escalation of [calculate_fraud_score]: with non-negative
    confidences, one check of confidence >= 0.90 and score >= 0.80 lifts
    the result to at least 0.6. *)
Lemma escalation_floor (checks : list FraudCheck) :
  Forall (fun c => 0 <= confidence c) checks -> existsb spec_critical checks = true ->
  0.6 <= calculate_fraud_score checks.
Proof.
  intros Hc Hcr.
  pose proof (total_weight_pos _ Hc Hcr) as Hpos.
  destruct checks as [|c0 rest]; [discriminate|].
  unfold calculate_fraud_score.
  pose proof (fold_score_step (c0 :: rest) 0.0 0.0 0.0) as Hf. cbv zeta in Hf.
  destruct (fold_left score_step (c0 :: rest) (0.0, 0.0, 0.0)) as [[ws tw] mc].
  cbn [fst snd] in Hf. destruct Hf as (_ & Htw & Hmc).
  replace (Qle_bool 0.80 0.0) with false in Hmc by reflexivity.
  rewrite orb_false_l, Hcr in Hmc.
  destruct (Qeq_bool tw 0) eqn:E.
  - apply Qeq_bool_iff in E. lra.
  - rewrite Hmc. apply py_min_ge; [apply Qle_bool_true; reflexivity|apply py_max_ge_r].
Qed.

(** What [check_compression_fraud] returns. *)
Lemma compression_shape (compression_receipt : dict) :
  let cls := default (PyStr "unknown") (dict_get compression_receipt "classification") in
  let pc := default (PyBool true) (dict_get compression_receipt "physics_consistent") in
  let c := check_compression_fraud compression_receipt in
  ck_type c = "compression_fraud" /\
  ck_passed c = py_eq_str cls "verified" || py_eq_str cls "suspect" /\
  (py_eq_str cls "verified" = true -> ck_score c = 0.0 /\ ck_confidence c = 0.95) /\
  0 < ck_confidence c /\ 0 <= ck_score c <= 1 /\
  (ck_passed c = false -> 0.7 <= ck_score c /\ 0.80 <= ck_confidence c) /\
  Qle_bool 0.90 (ck_confidence c) && Qle_bool 0.80 (ck_score c) =
    negb (ck_passed c) && negb (truthy pc).
Proof.
  intros cls pc c. unfold c, check_compression_fraud. fold cls. fold pc.
  destruct (py_eq_str cls "verified"); [|destruct (py_eq_str cls "suspect")];
    [| |destruct (truthy pc)];
    cbn [ck_type ck_passed ck_score ck_confidence negb orb];
    repeat split; solve [reflexivity | discriminate | lra | intros; lra |
                         intros; split; lra].
Qed.

(** What [check_double_counting] returns when it returns. *)
Lemma double_counting_shape (registry_receipt : dict) (c : Check) :
  check_double_counting registry_receipt = inr c ->
  ck_type c = "double_counting" /\ ck_confidence c = 0.99 /\ ck_score c <= 1.
Proof.
  unfold check_double_counting.
  destruct (py_eq_zero _).
  - intros H. injection H as <-. cbn. split; [reflexivity|]. split; [reflexivity|lra].
  - destruct (py_num _) as [d|]; [|discriminate].
    intros H. injection H as <-. cbn [ck_type ck_confidence ck_score].
    split; [reflexivity|]. split; [reflexivity|]. pose proof (py_min_le_l 1.0 (0.5 + d * 0.25)).
    lra.
Qed.

Close Scope Q_scope.
(** [v == 0] on the numbers agrees with their value; other values are
    never equal to 0. *)
Lemma py_eq_zero_num (v : pyval) (x : Q) :
  py_num v = Some x -> py_eq_zero v = Qeq_bool x 0.
Proof.
  destruct v as [|b|z|q| | |]; cbn [py_num py_eq_zero]; intros Hx; try discriminate;
    injection Hx as <-.
  - destruct b; reflexivity.
  - destruct (Z.eqb_spec z 0) as [->|Hz]; [reflexivity|].
    symmetry. apply not_true_iff_false. intros E. apply Qeq_bool_iff in E.
    apply Hz. apply inject_Z_injective. exact E.
  - reflexivity.
Qed.

Lemma py_eq_zero_not_num (v : pyval) : py_num v = None -> py_eq_zero v = false.
Proof. destruct v; cbn [py_num py_eq_zero]; congruence. Qed.

Lemma py_num_none (v : pyval) :
  (forall n, v <> PyInt n) -> (forall q, v <> PyFloat q) -> (forall b, v <> PyBool b) ->
  py_num v = None.
Proof.
  intros Hn Hq Hb. destruct v as [|b|n|q| | |]; try reflexivity; exfalso;
    [exact (Hb b eq_refl)|exact (Hn n eq_refl)|exact (Hq q eq_refl)].
Qed.

End DetectMoreFacts.

Module DetectExtras.
Import Detect DetectFacts DetectChecks DetectMoreFacts.
Open Scope Q_scope.

(** The recommendation that [detect_fraud] derives from a score through
    [classify_fraud_level] and [get_recommendation]: approve below 0.2
    (negative scores included), manual_review from 0.2 to below 0.5, and
    reject from 0.5 up (scores above 1 included). *)
Theorem recommendation_by_score (q : Q) :
  (q < 0.20 -> get_recommendation (classify_fraud_level q) = "approve") /\
  (0.20 <= q -> q < 0.50 -> get_recommendation (classify_fraud_level q) = "manual_review") /\
  (0.50 <= q -> get_recommendation (classify_fraud_level q) = "reject").
Proof.
  apply recommendation_bands.
Qed.

(** [calculate_fraud_score] never exceeds 1, whatever the checks; and when
    every confidence is non-negative, one check of confidence >= 0.90 and
    score >= 0.80 makes it at least 0.6, even when other scores lie outside
    [0, 1]. *)
Theorem fraud_score_cap_and_floor (checks : list FraudCheck) :
  calculate_fraud_score checks <= 1 /\
  (Forall (fun c => 0 <= confidence c) checks ->
   (exists c, In c checks /\ 0.90 <= confidence c /\ 0.80 <= score c) ->
   0.6 <= calculate_fraud_score checks).
Proof.
  split; [apply fraud_score_le_1|].
  intros Hc (c & Hin & H1 & H2). apply escalation_floor; [exact Hc|].
  apply existsb_exists. exists c. split; [exact Hin|].
  unfold spec_critical. apply andb_true_iff. split; apply Qle_bool_true; assumption.
Qed.

(** The three claim checks of [detect_fraud] stay in fixed ranges:
    additionality scores lie in [0, 1] with confidence 0.60, permanence
    scores in [0, 0.5] with confidence 0.65 (the fire-prone and
    political-risk country lists are disjoint, so 0.6 is never reached),
    leakage scores in [0, 0.35] with confidence 0.55; each passes exactly
    when its score is below 0.3. *)
Theorem claim_check_ranges (str_lower str_upper : string -> string) (claim : dict) :
  (forall c, check_additionality str_lower str_upper claim = inr c ->
     ck_type c = "additionality" /\ ck_confidence c = 0.60 /\
     0 <= ck_score c <= 1 /\ ck_passed c = low_risk (ck_score c)) /\
  (forall c, check_permanence str_lower claim = inr c ->
     ck_type c = "permanence" /\ ck_confidence c = 0.65 /\
     0 <= ck_score c <= 0.5 /\ ck_passed c = low_risk (ck_score c)) /\
  (forall c, check_leakage str_lower claim = inr c ->
     ck_type c = "leakage" /\ ck_confidence c = 0.55 /\
     0 <= ck_score c <= 0.35 /\ ck_passed c = low_risk (ck_score c)).
Proof.
  split; [|split]; intros c H.
  - exact (additionality_shape _ _ _ _ H).
  - exact (permanence_shape _ _ _ H).
  - exact (leakage_shape _ _ _ H).
Qed.

(** A [project_type] that is present but not a string makes all three
    claim checks raise [AttributeError] (from [.lower()]); a [location]
    that is present but not a dict makes the additionality and permanence
    checks raise [AttributeError] (from [.lower()] or [.get]). *)
Theorem claim_checks_attribute_errors (str_lower str_upper : string -> string) (claim : dict) :
  ((exists v, dict_get claim "project_type" = Some v /\ forall s, v <> PyStr s) ->
   check_additionality str_lower str_upper claim = inl AttributeError /\
   check_permanence str_lower claim = inl AttributeError /\
   check_leakage str_lower claim = inl AttributeError) /\
  ((exists v, dict_get claim "location" = Some v /\ forall d, v <> PyDict d) ->
   check_additionality str_lower str_upper claim = inl AttributeError /\
   check_permanence str_lower claim = inl AttributeError).
Proof.
  split.
  - intros (v & Hv & Hs). unfold check_additionality, check_permanence, check_leakage.
    rewrite Hv. cbn [default].
    destruct v as [| | | |s| |]; try (exfalso; exact (Hs s eq_refl));
      cbn [str_method]; (split; [reflexivity|split; reflexivity]).
  - intros (v & Hv & Hd). unfold check_additionality, check_permanence.
    rewrite Hv. cbn [default].
    destruct (default (PyStr "") (dict_get claim "project_type")) as [| | | |s| |];
      cbn [str_method]; try (split; reflexivity).
    destruct v as [| | | | | |d]; try (exfalso; exact (Hd d eq_refl));
      cbn [get_method]; (split; reflexivity).
Qed.


(** [check_double_counting]: a missing [duplicates_found], or one equal to
    0 (0, 0.0 or False), passes with score 0.0; any other int, float or
    bool x fails with confidence 0.99 and score min(1.0, 0.5 + 0.25 x),
    which is 1.0 from x = 2 on and negative below x = -2; a value that is
    not an int, float or bool raises [TypeError]. *)
Theorem check_double_counting_cases (registry_receipt : dict) :
  ((dict_get registry_receipt "duplicates_found" = None \/
    exists v x, dict_get registry_receipt "duplicates_found" = Some v /\
                py_num v = Some x /\ x == 0) ->
   exists c, check_double_counting registry_receipt = inr c /\
     ck_passed c = true /\ ck_score c = 0.0 /\ ck_confidence c = 0.99) /\
  (forall v x, dict_get registry_receipt "duplicates_found" = Some v ->
   py_num v = Some x -> ~ x == 0 ->
   exists c, check_double_counting registry_receipt = inr c /\
     ck_passed c = false /\ ck_confidence c = 0.99 /\
     ck_score c == Qmin 1.0 (0.5 + x * 0.25) /\
     (2 <= x -> ck_score c = 1.0) /\
     (x < -2 -> ck_score c < 0)) /\
  (forall v, dict_get registry_receipt "duplicates_found" = Some v ->
   (forall n, v <> PyInt n) -> (forall q, v <> PyFloat q) -> (forall b, v <> PyBool b) ->
   check_double_counting registry_receipt = inl TypeError).
Proof.
  unfold check_double_counting. split; [|split].
  - intros Hz.
    assert (E : py_eq_zero (default (PyInt 0) (dict_get registry_receipt "duplicates_found"))
                = true).
    { destruct Hz as [H|(v & x & H & Hx & H0)]; rewrite H; cbn [default id].
      - reflexivity.
      - rewrite (py_eq_zero_num v x Hx). apply Qeq_bool_iff. exact H0. }
    rewrite E. eexists. split; [reflexivity|]. cbn [ck_passed ck_score ck_confidence].
    split; [reflexivity|split; reflexivity].
  - intros v x H Hx Hn. rewrite H. cbn [default id].
    rewrite (py_eq_zero_num v x Hx).
    replace (Qeq_bool x 0) with false
      by (symmetry; apply not_true_iff_false; intros E; apply Hn, Qeq_bool_iff, E).
    rewrite Hx.
    eexists. split; [reflexivity|]. cbn [ck_passed ck_confidence ck_score].
    split; [reflexivity|]. split; [reflexivity|]. split; [|split].
    + rewrite py_min_Qmin. reflexivity.
    + intros H2. unfold py_min. replace (Qle_bool 1.0 (0.5 + x * 0.25)) with true;
        [reflexivity|symmetry; apply Qle_bool_true; lra].
    + intros H3. pose proof (py_min_le_r 1.0 (0.5 + x * 0.25)). lra.
  - intros v H Hn Hq Hb. rewrite H. cbn [default id].
    pose proof (py_num_none v Hn Hq Hb) as Hv.
    rewrite (py_eq_zero_not_num v Hv), Hv. reflexivity.
Qed.

(** [check_compression_fraud] passes exactly when the classification is
    "verified" or "suspect"; a failing check has score >= 0.7 and
    confidence >= 0.80, and it has the escalating combination (confidence
    >= 0.90 and score >= 0.80) exactly when it fails with a falsy
    [physics_consistent]. *)
Theorem check_compression_fraud_outcomes (compression_receipt : dict) :
  let cls := default (PyStr "unknown") (dict_get compression_receipt "classification") in
  let pc := default (PyBool true) (dict_get compression_receipt "physics_consistent") in
  let c := check_compression_fraud compression_receipt in
  ck_passed c = py_eq_str cls "verified" || py_eq_str cls "suspect" /\
  (ck_passed c = false -> 0.7 <= ck_score c /\ 0.80 <= ck_confidence c) /\
  Qle_bool 0.90 (ck_confidence c) && Qle_bool 0.80 (ck_score c) =
    negb (ck_passed c) && negb (truthy pc).
Proof.
  intros cls pc c.
  destruct (compression_shape compression_receipt) as (_ & Hp & _ & _ & _ & Hf & Hc).
  split; [exact Hp|]. split; [exact Hf|exact Hc].
Qed.

(** When the decision of [detect_fraud] is reached, a compression check
    that fails with a falsy [physics_consistent], or a registry receipt
    whose [duplicates_found] is a number (int, float or bool) of at least
    2, gives a fraud score of at least 0.6, level
    likely_fraud or confirmed_fraud, and the recommendation reject. *)
Theorem detect_decision_escalates (str_lower str_upper : string -> string)
    (claim compression_receipt registry_receipt : dict)
    (checks : list Check) (q : Q) (level recommendation : string) :
  detect_decision str_lower str_upper claim compression_receipt registry_receipt =
    inr (checks, q, level, recommendation) ->
  (negb (py_eq_str (default (PyStr "unknown") (dict_get compression_receipt "classification"))
                   "verified" ||
         py_eq_str (default (PyStr "unknown") (dict_get compression_receipt "classification"))
                   "suspect") &&
   negb (truthy (default (PyBool true) (dict_get compression_receipt "physics_consistent")))
     = true \/
   exists v x, dict_get registry_receipt "duplicates_found" = Some v /\
               py_num v = Some x /\ 2 <= x) ->
  0.6 <= q /\ (level = "likely_fraud" \/ level = "confirmed_fraud") /\
  recommendation = "reject".
Proof.
  intros H Hcrit. unfold detect_decision in H.
  destruct (check_double_counting registry_receipt) as [e|c2] eqn:E2; [discriminate|].
  destruct (check_additionality str_lower str_upper claim) as [e|c3] eqn:E3; [discriminate|].
  destruct (check_permanence str_lower claim) as [e|c4] eqn:E4; [discriminate|].
  destruct (check_leakage str_lower claim) as [e|c5] eqn:E5; [discriminate|].
  match type of H with
  | context [calculate_fraud_score ?x] => remember (calculate_fraud_score x) as q0 eqn:Hq
  end.
  remember (classify_fraud_level q0) as l0 eqn:Hlevel.
  remember (get_recommendation l0) as r0 eqn:Hrec.
  injection H as _ <- <- <-.
  destruct (compression_shape compression_receipt) as (_ & Hp1 & _ & Hc1 & _ & _ & Hk1).
  destruct (double_counting_shape _ _ E2) as (_ & Hc2 & _).
  destruct (additionality_shape _ _ _ _ E3) as (_ & Hc3 & _).
  destruct (permanence_shape _ _ _ E4) as (_ & Hc4 & _).
  destruct (leakage_shape _ _ _ E5) as (_ & Hc5 & _).
  assert (Hfloor : 0.6 <= q0).
  { rewrite Hq. apply escalation_floor.
    - cbn [map]. unfold fraud_check_of. cbn [confidence].
      rewrite Hc2, Hc3, Hc4, Hc5.
      repeat (apply List.Forall_cons; [cbn beta; cbn [confidence]; lra|]). apply List.Forall_nil.
    - cbn [map existsb]. unfold spec_critical, fraud_check_of. cbn [confidence score].
      destruct Hcrit as [Hcr|(v & x & Hn & Hx & H2)].
      + rewrite Hk1, Hp1, Hcr. reflexivity.
      + assert (Hs2 : Qle_bool 0.90 (ck_confidence c2) && Qle_bool 0.80 (ck_score c2) = true).
        { unfold check_double_counting in E2. rewrite Hn in E2.
          cbn [default id] in E2. rewrite (py_eq_zero_num v x Hx) in E2.
          replace (Qeq_bool x 0) with false in E2
            by (symmetry; apply not_true_iff_false; intros E;
                apply Qeq_bool_iff in E; lra).
          rewrite Hx in E2.
          injection E2 as <-. cbn [ck_confidence ck_score].
          unfold py_min.
          replace (Qle_bool 1.0 (0.5 + x * 0.25)) with true
            by (symmetry; apply Qle_bool_true; lra).
          reflexivity. }
        rewrite Hs2. rewrite orb_true_r. reflexivity. }
  destruct (classify_bands q0) as (_ & _ & Hl3 & Hl4).
  destruct (recommendation_bands q0) as (_ & _ & Hr).
  split; [exact Hfloor|]. split.
  - rewrite Hlevel. destruct (Qlt_le_dec q0 0.80) as [Hlt|Hge].
    + left. apply Hl3; lra.
    + right. apply Hl4. exact Hge.
  - rewrite Hrec, Hlevel. apply Hr. lra.
Qed.

Lemma detect_decision_escalates_witness :
  exists checks q level recommendation,
    detect_decision toy_lower toy_upper valid_claim [("classification", PyStr "verified")]
      [("duplicates_found", PyFloat 2.5)]
      = inr (checks, q, level, recommendation) /\
    dict_get [("duplicates_found", PyFloat 2.5)] "duplicates_found" = Some (PyFloat 2.5) /\
    py_num (PyFloat 2.5) = Some 2.5 /\ 2 <= 2.5 /\
    0.6 <= q /\ (level = "likely_fraud" \/ level = "confirmed_fraud") /\
    recommendation = "reject".
Proof.
  do 4 eexists. split; [cbv; reflexivity|].
  split; [reflexivity|]. split; [reflexivity|]. split; [lra|].
  eapply (detect_decision_escalates toy_lower toy_upper valid_claim
            [("classification", PyStr "verified")] [("duplicates_found", PyFloat 2.5)]).
  - vm_compute. reflexivity.
  - right. exists (PyFloat 2.5), 2.5. split; [reflexivity|]. split; [reflexivity|lra].
Defined.

(** When the decision of [detect_fraud] is reached with a "verified"
    compression receipt and no duplicates ([duplicates_found] missing, or
    a number equal to 0: 0, 0.0 or False), the fraud score
    lies in [0, 0.2), the level is clean and the recommendation approve,
    whatever the claim's additionality, permanence and leakage risks. *)
Theorem detect_decision_clean (str_lower str_upper : string -> string)
    (claim compression_receipt registry_receipt : dict)
    (checks : list Check) (q : Q) (level recommendation : string) :
  detect_decision str_lower str_upper claim compression_receipt registry_receipt =
    inr (checks, q, level, recommendation) ->
  dict_get compression_receipt "classification" = Some (PyStr "verified") ->
  (dict_get registry_receipt "duplicates_found" = None \/
   exists v x, dict_get registry_receipt "duplicates_found" = Some v /\
               py_num v = Some x /\ x == 0) ->
  0 <= q < 0.20 /\ level = "clean" /\ recommendation = "approve".
Proof.
  intros H Hv Hd. unfold detect_decision in H.
  destruct (check_double_counting registry_receipt) as [e|c2] eqn:E2; [discriminate|].
  destruct (check_additionality str_lower str_upper claim) as [e|c3] eqn:E3; [discriminate|].
  destruct (check_permanence str_lower claim) as [e|c4] eqn:E4; [discriminate|].
  destruct (check_leakage str_lower claim) as [e|c5] eqn:E5; [discriminate|].
  match type of H with
  | context [calculate_fraud_score ?x] => remember (calculate_fraud_score x) as q0 eqn:Hq
  end.
  remember (classify_fraud_level q0) as l0 eqn:Hlevel.
  remember (get_recommendation l0) as r0 eqn:Hrec.
  injection H as _ <- <- <-.
  destruct (compression_shape compression_receipt) as (Ht1 & _ & Hver & _).
  rewrite Hv in Hver. cbn [default py_eq_str String.eqb] in Hver.
  destruct (Hver eq_refl) as [Hs1 Hc1]. clear Hver.
  assert (Hc2 : c2 = mkCheck "double_counting" true 0.0 0.99 [("duplicates", PyInt 0)]).
  { unfold check_double_counting in E2.
    destruct Hd as [Hd|(v & x & Hd & Hx & H0)]; rewrite Hd in E2; cbn [default id] in E2.
    - cbn in E2. injection E2 as <-. reflexivity.
    - rewrite (py_eq_zero_num v x Hx), (proj2 (Qeq_bool_iff x 0) H0) in E2.
      injection E2 as <-. reflexivity. }
  destruct (additionality_shape _ _ _ _ E3) as (Ht3 & Hc3 & Hs3 & _).
  destruct (permanence_shape _ _ _ E4) as (Ht4 & Hc4 & Hs4 & _).
  destruct (leakage_shape _ _ _ E5) as (Ht5 & Hc5 & Hs5 & _).
  subst c2.
  destruct (check_compression_fraud compression_receipt) as [t1 p1 s1 cf1 d1].
  destruct c3 as [t3 p3 s3 cf3 d3]. destruct c4 as [t4 p4 s4 cf4 d4].
  destruct c5 as [t5 p5 s5 cf5 d5].
  cbn [ck_type ck_score ck_confidence] in *. subst t1 s1 cf1 t3 cf3 t4 cf4 t5 cf5.
  unfold fraud_check_of in Hq. cbn [map ck_type ck_passed ck_score ck_confidence] in Hq.
  set (L := [mkFraudCheck "compression_fraud" p1 0.0 0.95 [];
             mkFraudCheck "double_counting" true 0.0 0.99 [];
             mkFraudCheck "additionality" p3 s3 0.60 [];
             mkFraudCheck "permanence" p4 s4 0.65 [];
             mkFraudCheck "leakage" p5 s5 0.55 []]) in Hq.
  assert (Hq' : 0 <= q0 < 0.20).
  { rewrite Hq. unfold calculate_fraud_score, L.
    pose proof (fold_score_step L 0.0 0.0 0.0) as Hf. cbv zeta in Hf. unfold L in Hf.
    destruct (fold_left score_step _ (0.0, 0.0, 0.0)) as [[ws tw] mc].
    cbn [fst snd] in Hf. destruct Hf as (Hws & Htw & Hmc).
    assert (Hcr : existsb spec_critical L = false) by reflexivity.
    unfold L in Hcr. rewrite Hcr in Hmc.
    replace (Qle_bool 0.80 0.0) with false in Hmc by reflexivity. cbn [orb] in Hmc.
    assert (HT : spec_total_weight L == 0.8395) by (vm_compute; reflexivity).
    assert (HW : spec_weighted_sum L ==
                 s3 * (0.15 * 0.60) + s4 * (0.10 * 0.65) + s5 * (0.10 * 0.55)).
    { unfold L, spec_weighted_sum. cbn [fold_right score confidence check_type].
      change (fraud_weight "compression_fraud") with 0.35.
      change (fraud_weight "double_counting") with 0.30.
      change (fraud_weight "additionality") with 0.15.
      change (fraud_weight "permanence") with 0.10.
      change (fraud_weight "leakage") with 0.10. ring. }
    unfold L in HT, HW.
    destruct (Qeq_bool tw 0) eqn:Etw.
    - apply Qeq_bool_iff in Etw. lra.
    - rewrite Hmc.
      assert (Htw' : tw == 0.8395) by lra.
      assert (Hws' : ws == s3 * (0.15 * 0.60) + s4 * (0.10 * 0.65) + s5 * (0.10 * 0.55))
        by lra.
      assert (Hlo : 0 <= ws / tw).
      { rewrite Htw'. apply Qle_shift_div_l; [reflexivity|]. lra. }
      assert (Hhi : ws / tw < 0.20).
      { rewrite Htw'. apply Qlt_shift_div_r; [reflexivity|]. lra. }
      pose proof (py_min_le_r 1.0 (ws / tw)).
      split; [apply py_min_ge; lra|lra]. }
  destruct (classify_bands q0) as (Hl1 & _).
  destruct (recommendation_bands q0) as (Hr1 & _).
  split; [exact Hq'|]. split.
  - rewrite Hlevel. apply Hl1. lra.
  - rewrite Hrec, Hlevel. apply Hr1. lra.
Qed.

Lemma detect_decision_clean_witness :
  exists checks q level recommendation,
    detect_decision toy_lower toy_upper valid_claim
      [("classification", PyStr "verified")] [("duplicates_found", PyFloat 0.0)]
      = inr (checks, q, level, recommendation) /\
    dict_get [("classification", PyStr "verified")] "classification" = Some (PyStr "verified") /\
    dict_get [("duplicates_found", PyFloat 0.0)] "duplicates_found" = Some (PyFloat 0.0) /\
    py_num (PyFloat 0.0) = Some 0.0 /\ 0.0 == 0 /\
    0 <= q < 0.20 /\ level = "clean" /\ recommendation = "approve".
Proof.
  do 4 eexists. split; [cbv; reflexivity|]. split; [reflexivity|]. split; [reflexivity|].
  split; [reflexivity|]. split; [reflexivity|].
  eapply (detect_decision_clean toy_lower toy_upper valid_claim
            [("classification", PyStr "verified")] [("duplicates_found", PyFloat 0.0)]).
  - vm_compute. reflexivity.
  - reflexivity.
  - right. exists (PyFloat 0.0), 0.0. split; [reflexivity|]. split; reflexivity.
Defined.

Close Scope Q_scope.
End DetectExtras.
